(** * WS2812 BLE matrix client: frame codec, discovery and command session

    A shallow embedding of [ws2812_ble_test.py] (frame codec and device
    discovery) and of the [WS2812Controller.send_command] coroutine of
    [03_ws2812_config_ui.py] and [ws2812_config_ui.py], with the properties
    the specification states about them.

    Python [int] is [Z]; [bytes] and [bytearray] are lists of [Z] whose
    elements lie in [range(256)]; a raised exception is the [Raise] branch of
    [result]; the BLE stack, which the code only calls, is a script of what
    each call does together with a log of the calls made. *)

From Stdlib Require Import ZArith Lia.
From stdpp Require Import base list strings.

Local Open Scope Z_scope.

(** ** Exceptions and fallible computations *)

(** The exception classes the code raises or may receive from the BLE stack.
    All of them derive from Python's [Exception]; [str(e)] is the message. *)
Inductive exn : Type :=
  | ValueError (msg : string)
  | IndexError (msg : string)
  | RuntimeError (msg : string)
  | Exception (msg : string)
  | BleakError (msg : string).

Definition str (e : exn) : string :=
  match e with
  | ValueError m | IndexError m | RuntimeError m | Exception m | BleakError m => m
  end.

Inductive result (A : Type) : Type :=
  | Ok (a : A)
  | Raise (e : exn).
Arguments Ok {A} a.
Arguments Raise {A} e.

#[global] Instance result_ret : MRet result := fun _ a => Ok a.
#[global] Instance result_bind : MBind result := fun _ _ f m =>
  match m with
  | Ok a => f a
  | Raise e => Raise e
  end.

(** ** Python [bytes] *)

Abbreviation bytes := (list Z) (only parsing).

Definition is_byte (b : Z) : Prop := 0 <= b < 256.
Definition is_bytes (data : bytes) : Prop := Forall is_byte data.

Definition in_range_256 (b : Z) : bool := (0 <=? b) && (b <? 256).

(** [len(data)] as a Python int. *)
Definition len (data : bytes) : Z := Z.of_nat (length data).

(** [bytearray.append(b)]: raises [ValueError] outside [range(256)]. *)
Definition append (frame : bytes) (b : Z) : result bytes :=
  if in_range_256 b then Ok (frame ++ [b])
  else Raise (ValueError "byte must be in range(0, 256)").

(** [bytes([...])]: same range check on every element. *)
Definition bytes_of (l : list Z) : result bytes :=
  if forallb in_range_256 l then Ok l
  else Raise (ValueError "bytes must be in range(0, 256)").

(** [data[i]] with Python's negative indices and [IndexError]. *)
Definition getitem (data : bytes) (i : Z) : result Z :=
  let j := if i <? 0 then i + len data else i in
  if j <? 0 then Raise (IndexError "index out of range")
  else match data !! Z.to_nat j with
       | Some b => Ok b
       | None => Raise (IndexError "index out of range")
       end.

(** Bound of a slice: negative bounds count from the end, all are clipped. *)
Definition clip (data : bytes) (i : Z) : nat :=
  Z.to_nat (if i <? 0 then Z.max (i + len data) 0 else Z.min i (len data)).

(** [data[lo:hi]]. *)
Definition slice (data : bytes) (lo hi : Z) : bytes :=
  take (clip data hi - clip data lo)%nat (drop (clip data lo) data).

(** ** ws2812_ble_test.py: constants *)

Definition FRAME_HEADER : Z := 0xAA55.
Definition PROTOCOL_VERSION : Z := 0x01.
Definition MAX_PAYLOAD : Z := 32.
Definition UUID_CHAR_COMMAND : string := "0000ff01-0000-1000-8000-00805f9b34fb".

(** ** ws2812_ble_test.py: crc_xor, build_frame, parse_ack *)

Definition crc_xor (data : bytes) : Z :=
  fold_left (fun checksum b => Z.lxor checksum b) data 0.

Definition build_frame (event sub_event sequence : Z) (payload : bytes)
  : result bytes :=
  if len payload >? MAX_PAYLOAD then Raise (ValueError "payload too long")
  else
    let frame : bytes := [] in
    hdr ← bytes_of [Z.land (Z.shiftr FRAME_HEADER 8) 0xFF;
                    Z.land FRAME_HEADER 0xFF];
    let frame := frame ++ hdr in
    frame ← append frame PROTOCOL_VERSION;
    frame ← append frame (Z.land event 0xFF);
    frame ← append frame (Z.land sub_event 0xFF);
    frame ← append frame (Z.land sequence 0xFF);
    frame ← append frame (len payload);
    let frame := frame ++ payload in
    let checksum := crc_xor frame in
    frame ← append frame checksum;
    Ok frame.

(** The dictionary [parse_ack] returns; its six keys are fixed. *)
Record Ack : Type := mkAck {
  event : Z;
  sub_event : Z;
  sequence : Z;
  status : option Z;
  ref_event : option Z;
  ref_sub : option Z
}.

Definition parse_ack (data : bytes) : result Ack :=
  if len data <? 9 then Raise (ValueError "ACK frame too short")
  else
    d0 ← getitem data 0;
    d1 ← getitem data 1;
    let header := Z.lor (Z.shiftl d0 8) d1 in
    if negb (header =? FRAME_HEADER) then Raise (ValueError "Invalid header")
    else
      version ← getitem data 2;
      if negb (version =? PROTOCOL_VERSION)
      then Raise (ValueError "Protocol version mismatch")
      else
        event ← getitem data 3;
        sub_event ← getitem data 4;
        seq ← getitem data 5;
        data_len ← getitem data 6;
        let payload := slice data 7 (7 + data_len) in
        let checksum_index := 7 + data_len in
        if checksum_index >=? len data
        then Raise (ValueError "ACK data length mismatch")
        else
          checksum ← getitem data checksum_index;
          if negb (checksum =? crc_xor (slice data 0 (-1)))
          then Raise (ValueError "Checksum mismatch")
          else
            Ok {| event := event;
                  sub_event := sub_event;
                  sequence := seq;
                  status := match payload with
                            | [] => None
                            | _ => payload !! 0%nat
                            end;
                  ref_event := if len payload >? 1 then payload !! 1%nat
                               else None;
                  ref_sub := if len payload >? 2 then payload !! 2%nat
                             else None |}.

(** ** ws2812_ble_test.py: discover_device_by_name *)

(** What [BleakScanner.discover] yields for one advertisement: the
    advertised name may be missing ([None]). *)
Record BLEDevice : Type := mkDevice {
  name : option string;
  address : string
}.

(** Python truthiness of [device.name]: [None] and the empty string are
    false. *)
Definition truthy_name (n : option string) : bool :=
  match n with
  | Some s => negb (String.eqb s "")
  | None => false
  end.

(** [device.name == device_name]. *)
Definition name_eq (n : option string) (device_name : string) : bool :=
  match n with
  | Some s => String.eqb s device_name
  | None => false
  end.

(** The [for device in devices] loop with its early [return]. *)
Fixpoint first_match (device_name : string) (devices : list BLEDevice)
  : option string :=
  match devices with
  | [] => None
  | device :: rest =>
      if truthy_name (name device) && name_eq (name device) device_name
      then Some (address device)
      else first_match device_name rest
  end.

(** [scanned] is the outcome of [await BleakScanner.discover(timeout)]: the
    advertisements seen, or the exception the BLE stack raised. *)
Definition discover_device_by_name (device_name : string)
    (scanned : result (list BLEDevice)) : result (option string) :=
  devices ← scanned;
  Ok (first_match device_name devices).

(** ** The BLE transport as seen from [send_command] *)

(** Calls made on the client and on Streamlit, in program order. *)
Inductive call : Type :=
  | StartNotify (uuid : string)
  | WriteGattChar (uuid : string) (data : bytes)
  | Sleep (seconds : Z)
  | StopNotify (uuid : string)
  | StWarning (msg : string).

(** What the environment does during one [send_command]: whether the lazy
    import of the helpers works, the exception (if any) each client call
    raises, and the notifications the peripheral sends while the coroutine
    sleeps. *)
Record Script : Type := mkScript {
  import_ok : bool;
  on_start_notify : option exn;
  on_write : option exn;
  incoming : list bytes;
  on_stop_notify : option exn
}.

(** State threaded through the coroutine: the log of calls, whether the
    client holds a notification subscription, and the two locals that the
    closure and the [finally] block share with the body. *)
Record env : Type := mkEnv {
  calls : list call;
  subscribed : bool;
  notify_started : bool;
  ack_received : option Ack
}.

Definition env0 : env := mkEnv [] false false None.

Definition IO (A : Type) : Type := env -> result A * env.

#[global] Instance IO_ret : MRet IO := fun _ a s => (Ok a, s).
#[global] Instance IO_bind : MBind IO := fun _ _ f m s =>
  match m s with
  | (Ok a, s') => f a s'
  | (Raise e, s') => (Raise e, s')
  end.

Definition raise {A} (e : exn) : IO A := fun s => (Raise e, s).

Definition lift {A} (r : result A) : IO A := fun s => (r, s).

Definition log (c : call) : IO unit := fun s =>
  (Ok tt, mkEnv (calls s ++ [c]) (subscribed s) (notify_started s)
                (ack_received s)).

Definition set_subscribed (b : bool) : IO unit := fun s =>
  (Ok tt, mkEnv (calls s) b (notify_started s) (ack_received s)).

Definition set_notify_started (b : bool) : IO unit := fun s =>
  (Ok tt, mkEnv (calls s) (subscribed s) b (ack_received s)).

Definition set_ack_received (a : option Ack) : IO unit := fun s =>
  (Ok tt, mkEnv (calls s) (subscribed s) (notify_started s) a).

Definition get_notify_started : IO bool := fun s => (Ok (notify_started s), s).
Definition get_ack_received : IO (option Ack) := fun s =>
  (Ok (ack_received s), s).
Definition get_subscribed : IO bool := fun s => (Ok (subscribed s), s).

(** [try: body except Exception as e: handler(e)]. *)
Definition try_except {A} (body : IO A) (handler : exn -> IO A) : IO A :=
  fun s =>
    match body s with
    | (Ok a, s') => (Ok a, s')
    | (Raise e, s') => handler e s'
    end.

(** [try: body finally: final]: [final] runs on both exits; an exception of
    [final] replaces the outcome of [body]. *)
Definition try_finally {A} (body : IO A) (final : IO unit) : IO A :=
  fun s =>
    match body s with
    | (r, s') =>
        match final s' with
        | (Ok _, s'') => (r, s'')
        | (Raise e, s'') => (Raise e, s'')
        end
    end.

Definition outcome (o : option exn) : IO unit :=
  match o with
  | None => mret tt
  | Some e => raise e
  end.

Definition st_warning (msg : string) : IO unit := log (StWarning msg).

Section Transport.
Variable script : Script.

(** The closure [ack_handler(sender, data)]; [ack_received] is its
    [nonlocal]. *)
Definition ack_handler (data : bytes) : IO unit :=
  try_except
    (a ← lift (parse_ack data);
     set_ack_received (Some a))
    (fun e => st_warning ("Failed to parse ACK: " +:+ str e)).

Fixpoint deliver (handler : bytes -> IO unit) (notifications : list bytes)
  : IO unit :=
  match notifications with
  | [] => mret tt
  | data :: rest => handler data ;; deliver handler rest
  end.

(** [await client.start_notify(uuid, handler)]. The handler registered here
    is the one the stack calls during [sleep]. *)
Definition start_notify (uuid : string) (handler : bytes -> IO unit)
  : IO unit :=
  log (StartNotify uuid) ;;
  outcome (on_start_notify script) ;;
  set_subscribed true.

Definition write_gatt_char (uuid : string) (data : bytes) : IO unit :=
  log (WriteGattChar uuid data) ;;
  outcome (on_write script).

(** [await asyncio.sleep(seconds)]: while the coroutine is suspended the
    stack calls the registered handler once per notification received. *)
Definition sleep (seconds : Z) (handler : bytes -> IO unit) : IO unit :=
  log (Sleep seconds) ;;
  b ← get_subscribed;
  if b : bool then deliver handler (incoming script) else mret tt.

Definition stop_notify (uuid : string) : IO unit :=
  log (StopNotify uuid) ;;
  outcome (on_stop_notify script) ;;
  set_subscribed false.

(** The lazy [from ws2812_ble_test import build_frame, parse_ack]. *)
Definition import_helpers : IO unit :=
  if import_ok script then mret tt
  else raise (RuntimeError
    "BLE helper functions not available (is ws2812_ble_test.py present?)").
End Transport.

Record BleakClient : Type := mkClient {
  is_connected : bool
}.

Record WS2812Controller : Type := mkController {
  device_address : option string;
  client : option BleakClient
}.

(** [not self.client or not self.client.is_connected]. *)
Definition not_connected (self : WS2812Controller) : bool :=
  match client self with
  | None => true
  | Some c => negb (is_connected c)
  end.

(** ** 03_ws2812_config_ui.py: WS2812Controller.send_command *)

Module ConfigUi03.

Definition send_command (script : Script) (self : WS2812Controller)
    (event subevent : Z) (payload : bytes) : IO (option Ack) :=
  if not_connected self then raise (Exception "Device not connected")
  else
    import_helpers script ;;
    frame ← lift (build_frame event subevent 1 payload);
    set_ack_received None ;;
    set_notify_started false ;;
    try_finally
      (try_except
         (start_notify script UUID_CHAR_COMMAND (ack_handler) ;;
          set_notify_started true ;;
          write_gatt_char script UUID_CHAR_COMMAND frame ;;
          sleep script 2 ack_handler)
         (fun e => raise (Exception ("Command send error: " +:+ str e))))
      (started ← get_notify_started;
       if started : bool then
         try_except
           (stop_notify script UUID_CHAR_COMMAND)
           (fun e => st_warning ("Error stopping notification: " +:+ str e))
       else mret tt) ;;
    get_ack_received.

End ConfigUi03.

(** ** ws2812_config_ui.py: WS2812Controller.send_command *)

Module ConfigUi.

Definition send_command (script : Script) (self : WS2812Controller)
    (event subevent : Z) (payload : bytes) : IO (option Ack) :=
  if not_connected self then raise (Exception "Device not connected")
  else
    import_helpers script ;;
    frame ← lift (build_frame event subevent 1 payload);
    set_ack_received None ;;
    start_notify script UUID_CHAR_COMMAND ack_handler ;;
    write_gatt_char script UUID_CHAR_COMMAND frame ;;
    sleep script 2 ack_handler ;;
    stop_notify script UUID_CHAR_COMMAND ;;
    get_ack_received.

End ConfigUi.

(** Frames handed to [write_gatt_char], in order. *)
Definition written_frames (cs : list call) : list bytes :=
  omap (fun c => match c with WriteGattChar _ data => Some data | _ => None end)
       cs.

(** ** Single-bit corruption of a frame *)

(** Flip bit [k] of the byte at index [i]. *)
Definition flip_bit (frame : bytes) (i : nat) (k : Z) : bytes :=
  alter (fun b => Z.lxor b (Z.shiftl 1 k)) i frame.

(** ** The wire layout of the specification *)

(** The frame table: magic, version, event, subevent, sequence, payload
    length, payload, then the XOR of everything before. *)
Definition wire_head (event sub_event sequence : Z) (payload : bytes) : bytes :=
  [0xAA; 0x55; 0x01; Z.land event 0xFF; Z.land sub_event 0xFF;
   Z.land sequence 0xFF; len payload] ++ payload.

Definition wire_frame (event sub_event sequence : Z) (payload : bytes) : bytes :=
  wire_head event sub_event sequence payload
  ++ [crc_xor (wire_head event sub_event sequence payload)].

(** The dictionary built on the success path of [parse_ack]. *)
Definition ack_of (e s q : Z) (payload : bytes) : Ack :=
  {| event := e;
     sub_event := s;
     sequence := q;
     status := match payload with
               | [] => None
               | _ => payload !! 0%nat
               end;
     ref_event := if len payload >? 1 then payload !! 1%nat else None;
     ref_sub := if len payload >? 2 then payload !! 2%nat else None |}.

(** ** What a decoder failure should be, by position of the flipped byte *)

(** The check of [parse_ack] that meets a corrupted byte first: the magic
    (offsets 0 and 1), the version (offset 2), the declared length
    (offset 6); every other byte is only covered by the checksum. *)
Definition rejection_at (i : nat) : string :=
  if (i <? 2)%nat then "Invalid header"
  else if (i =? 2)%nat then "Protocol version mismatch"
  else if (i =? 6)%nat then "ACK data length mismatch"
  else "Checksum mismatch".

(** ** What the notification callback leaves behind *)

(** The warning the handler issues for one notification, if any. *)
Definition parse_warning (data : bytes) : list call :=
  match parse_ack data with
  | Ok _ => []
  | Raise e => [StWarning ("Failed to parse ACK: " +:+ str e)]
  end.

Definition parse_warnings (notifications : list bytes) : list call :=
  flat_map parse_warning notifications.

(** The value of [ack_received] after the handler has seen the
    notifications: the last one that decoded, else what it was. *)
Definition last_ack (notifications : list bytes) (previous : option Ack)
  : option Ack :=
  fold_left (fun acc data => match parse_ack data with
                             | Ok a => Some a
                             | Raise _ => acc
                             end) notifications previous.

(** What the [finally] block of [03_ws2812_config_ui.py] adds after its
    [stop_notify] call, and the subscription state it leaves. *)
Definition stop_warning (script : Script) : list call :=
  match on_stop_notify script with
  | None => []
  | Some e => [StWarning ("Error stopping notification: " +:+ str e)]
  end.

Definition after_stop (script : Script) : bool :=
  match on_stop_notify script with
  | None => false
  | Some _ => true
  end.

(** ** Matching advertisements *)

(** The advertisement carries a name, and it is [n]. A missing name and the
    empty name both count as no name (they are false in Python). *)
Definition advertises (d : BLEDevice) (n : string) : Prop :=
  name d = Some n /\ n <> "".

(** ** connect_device and disconnect *)

(** What the environment does during one [connect_device]: the exception of
    the lazy imports (if any), the outcome of the scan, and the exception of
    [client.connect()] (if any). *)
Record ConnectScript : Type := mkConnectScript {
  on_import : option exn;
  scanned : result (list BLEDevice);
  on_connect : option exn
}.

(** Calls that create, open and close the link, and [st.error]. *)
Inductive link_call : Type :=
  | NewClient (addr : string)
  | Connect
  | Disconnect
  | StError (msg : string).

(** The body of the [try] block, the same in both files. [self.device_address]
    is assigned as soon as the scan returns, [self.client] as soon as the
    client is constructed; a fresh [BleakClient] reports [is_connected] false
    and does so until [connect()] has returned. *)
Definition connect_body (script : ConnectScript) (self : WS2812Controller)
    (device_name : string)
  : result bool * WS2812Controller * list link_call :=
  match on_import script with
  | Some ex => (Raise ex, self, [])
  | None =>
      match discover_device_by_name device_name (scanned script) with
      | Raise ex => (Raise ex, self, [])
      | Ok found =>
          let self := mkController found (client self) in
          match found with
          | Some a =>
              if truthy_name (Some a) then
                let self := mkController found (Some (mkClient false)) in
                match on_connect script with
                | Some ex => (Raise ex, self, [NewClient a; Connect])
                | None =>
                    (Ok true, mkController found (Some (mkClient true)),
                     [NewClient a; Connect])
                end
              else (Ok false, self, [])
          | None => (Ok false, self, [])
          end
      end
  end.

Module Controller03.

(** [03_ws2812_config_ui.py]: [except Exception: raise]. *)
Definition connect_device (script : ConnectScript) (self : WS2812Controller)
    (device_name : string)
  : result bool * WS2812Controller * list link_call :=
  match connect_body script self device_name with
  | (Raise ex, self, cs) => (Raise ex, self, cs)
  | (Ok b, self, cs) => (Ok b, self, cs)
  end.

End Controller03.

Module Controller.

(** [ws2812_config_ui.py]: [except Exception as e: st.error(...); return
    False]. *)
Definition connect_device (script : ConnectScript) (self : WS2812Controller)
    (device_name : string)
  : result bool * WS2812Controller * list link_call :=
  match connect_body script self device_name with
  | (Raise ex, self, cs) =>
      (Ok false, self, cs ++ [StError ("Connection failed: " +:+ str ex)])
  | (Ok b, self, cs) => (Ok b, self, cs)
  end.

End Controller.

(** [disconnect], the same in both files. [self.client] is kept; after a
    [disconnect()] that returned, the client reports [is_connected] false. *)
Definition disconnect (on_disconnect : option exn) (self : WS2812Controller)
  : result unit * WS2812Controller * list link_call :=
  match client self with
  | None => (Ok tt, self, [])
  | Some c =>
      match on_disconnect with
      | Some ex => (Raise ex, self, [Disconnect])
      | None =>
          (Ok tt, mkController (device_address self) (Some (mkClient false)),
           [Disconnect])
      end
  end.

(** ** The time-sync payload *)

(** The [length] low bytes of [n], least significant first. *)
Fixpoint le_bytes (length : nat) (n : Z) : list Z :=
  match length with
  | O => []
  | S k => n mod 256 :: le_bytes k (n / 256)
  end.

(** [n.to_bytes(length, byteorder='little')]; [None] is the [OverflowError]
    of a negative [n] or of one that does not fit. *)
Definition to_bytes_little (length : nat) (n : Z) : option bytes :=
  if (0 <=? n) && (n <? 256 ^ Z.of_nat length) then Some (le_bytes length n)
  else None.

(** [struct.pack("<I", n)]: four bytes, least significant first; [None] is
    [struct.error]. *)
Definition struct_pack_I_le (n : Z) : option bytes := to_bytes_little 4 n.

(** [int.from_bytes(data, byteorder='little')], what the device computes. *)
Definition from_bytes_little (data : bytes) : Z :=
  fold_right (fun b acc => b + 256 * acc) 0 data.

(** The "Sync Time" button of [03_ws2812_config_ui.py], with [ts] the value
    of [int(time.time())]: [None] when [to_bytes] overflows (it is called
    outside the [try]), else what [send_command] does. *)
Definition sync_time (script : Script) (self : WS2812Controller) (ts : Z)
  : option (result (option Ack) * env) :=
  match to_bytes_little 4 ts with
  | None => None
  | Some payload =>
      Some (ConfigUi03.send_command script self 0x11 0x00 payload env0)
  end.

(** ** ws2812_ble_test.py: run *)

(** The parsed command line. [args.wait] is handed to [asyncio.sleep]
    unchanged. *)
Record Namespace : Type := mkNamespace {
  args_address : option string;
  args_name : option string;
  args_event : Z;
  args_subevent : Z;
  args_payload : string;
  args_sequence : Z;
  args_wait : Z;
  args_timesync : bool
}.

(** [run] can also leave with [struct.error], which is not one of [exn]. *)
Inductive run_exn : Type :=
  | Std (e : exn)
  | StructError.

Inductive run_result (A : Type) : Type :=
  | Returns (a : A)
  | Raises (e : run_exn).
Arguments Returns {A} a.
Arguments Raises {A} e.

Definition of_result {A} (r : result A) : run_result A :=
  match r with
  | Ok a => Returns a
  | Raise e => Raises (Std e)
  end.

(** What the environment does during one [run]: the clock, the scan, the
    context manager of [BleakClient] ([__aenter__] connects, [__aexit__]
    disconnects), what [is_connected] reports inside the block, and the
    client calls. *)
Record RunScript : Type := mkRunScript {
  now : Z;
  run_scanned : result (list BLEDevice);
  on_enter : option exn;
  connected : bool;
  transport : Script;
  on_exit : option exn
}.

Inductive run_call : Type :=
  | Scan (device_name : string)
  | Enter (addr : option string)
  | Client (c : call)
  | Exit.

Section Run.
(** [bytes.fromhex], which the code only calls. *)
Variable fromhex : string -> result bytes.

(** Lines 103 to 114: the frame is built before anything touches the
    radio. The hex payload is parsed even when [--timesync] replaces it. *)
Definition run_frame (ts : Z) (args : Namespace) : run_result bytes :=
  let sequence := Z.land (args_sequence args) 0xFF in
  match (if String.eqb (args_payload args) "" then Ok []
         else fromhex (args_payload args)) with
  | Raise ex => Raises (Std ex)
  | Ok payload =>
      if args_timesync args then
        match struct_pack_I_le ts with
        | None => Raises StructError
        | Some payload => of_result (build_frame 0x11 0x00 sequence payload)
        end
      else
        of_result (build_frame (args_event args) (args_subevent args)
                               sequence payload)
  end.

(** Lines 118 to 122: the address given, or the one found by name. *)
Definition run_address (script : RunScript) (args : Namespace)
  : run_result (option string) * list run_call :=
  match args_name args with
  | Some n =>
      if truthy_name (Some n) then
        match discover_device_by_name n (run_scanned script) with
        | Raise ex => (Raises (Std ex), [Scan n])
        | Ok found =>
            if truthy_name found then (Returns found, [Scan n])
            else (Raises (Std (RuntimeError
                    ("Could not find device with name: " +:+ n))), [Scan n])
        end
      else (Returns (args_address args), [])
  | None => (Returns (args_address args), [])
  end.

(** The handler of [run] only logs; an exception of [parse_ack] inside it is
    raised into the BLE stack, not into [run]. *)
Definition log_handler (data : bytes) : IO unit := mret tt.

(** The body of the [async with] block. *)
Definition run_body (script : RunScript) (frame : bytes) (wait : Z) : IO unit :=
  if negb (connected script) then raise (RuntimeError "Failed to connect")
  else
    start_notify (transport script) UUID_CHAR_COMMAND log_handler ;;
    write_gatt_char (transport script) UUID_CHAR_COMMAND frame ;;
    sleep (transport script) wait log_handler ;;
    stop_notify (transport script) UUID_CHAR_COMMAND.

(** Lines 126 to 133: [__aexit__] runs on every exit of the body; its own
    exception replaces the one of the body. *)
Definition run_session (script : RunScript) (addr : option string)
    (frame : bytes) (wait : Z) : option run_exn * list run_call :=
  match on_enter script with
  | Some ex => (Some (Std ex), [Enter addr])
  | None =>
      let out := run_body script frame wait env0 in
      let cs := Enter addr :: map Client (calls out.2) ++ [Exit] in
      match on_exit script with
      | Some ex => (Some (Std ex), cs)
      | None =>
          (match out.1 with
           | Ok _ => None
           | Raise ex => Some (Std ex)
           end, cs)
      end
  end.

Definition run (script : RunScript) (args : Namespace)
  : option run_exn * list run_call :=
  match run_frame (now script) args with
  | Raises e => (Some e, [])
  | Returns frame =>
      match run_address script args with
      | (Raises e, cs) => (Some e, cs)
      | (Returns addr, cs) =>
          let out := run_session script addr frame (args_wait args) in
          (out.1, cs ++ out.2)
      end
  end.
End Run.

(** ** 03_ws2812_config_ui.py: the effect table and the effect payload *)

Definition EFFECTS : list (string * Z) :=
  [("Water Effect", 0x00); ("Turn Left V1", 0x01); ("Turn Left V2", 0x02);
   ("Turn Left V3", 0x03); ("Turn Right V1", 0x04); ("Turn Right V2", 0x05);
   ("Turn Right V3", 0x06); ("Go Forward V1", 0x07); ("Go Forward V2", 0x08);
   ("Go Forward V3", 0x09); ("Aurora Wave", 0x0A); ("Rainbow Cycle", 0x10);
   ("Plasma", 0x11); ("Ripple", 0x12); ("Cloud", 0x13); ("Cylon", 0x14)].

(** [sub in s] on strings. *)
Fixpoint contains (sub s : string) : bool :=
  String.prefix sub s ||
  match s with
  | EmptyString => false
  | String _ rest => contains sub rest
  end.

(** The values of the six sliders. *)
Record Sliders : Type := mkSliders {
  intensity : Z;
  speed : Z;
  wave_speed : Z;
  brightness : Z;
  anim_speed : Z;
  anim_brightness : Z
}.

(** The bounds given to [st.slider]. *)
Definition sliders_in_range (w : Sliders) : Prop :=
  1 <= intensity w <= 255 /\ 1 <= speed w <= 10 /\
  1 <= wave_speed w <= 20 /\ 1 <= brightness w <= 255 /\
  1 <= anim_speed w <= 20 /\ 1 <= anim_brightness w <= 255.

(** The [if]/[elif] chain that picks the payload of "Apply Effect". *)
Definition effect_payload (effect_name : string) (w : Sliders) : result bytes :=
  if contains "Turn" effect_name || contains "Forward" effect_name
  then bytes_of [intensity w; speed w]
  else if String.eqb effect_name "Aurora Wave"
  then bytes_of [wave_speed w; brightness w]
  else if existsb (String.eqb effect_name)
            ["Rainbow Cycle"; "Plasma"; "Ripple"; "Cloud"]
  then bytes_of [anim_speed w; anim_brightness w]
  else Ok [0x01].

(** ** Proof steps used more than once *)

(** Unfold the transport primitives and the two monads down to pairs. *)
Ltac run_io :=
  unfold import_helpers, start_notify, write_gatt_char, sleep, stop_notify,
    outcome, st_warning, try_finally, try_except, lift, raise, log,
    set_subscribed, set_notify_started, set_ack_received,
    get_notify_started, get_ack_received, get_subscribed;
  unfold mbind, IO_bind, mret, IO_ret.

(** One case per bit position of a byte. *)
Ltac each_bit k :=
  let C := fresh "C" in
  assert (C : k = 0 \/ k = 1 \/ k = 2 \/ k = 3 \/ k = 4 \/ k = 5 \/ k = 6 \/ k = 7)
    by lia;
  destruct C as [-> | [-> | [-> | [-> | [-> | [-> | [-> | ->]]]]]]].

(** ** Bytes and XOR *)

Lemma in_range_256_true (b : Z) : is_byte b -> in_range_256 b = true.
Proof.
  unfold is_byte, in_range_256. intros [H0 H1].
  apply andb_true_intro. split; [apply Z.leb_le | apply Z.ltb_lt]; lia.
Qed.

Lemma is_byte_land (x : Z) : is_byte (Z.land x 0xFF).
Proof.
  unfold is_byte. change 0xFF with (Z.ones 8).
  rewrite Z.land_ones by lia. change (2 ^ 8) with 256.
  apply Z.mod_pos_bound. lia.
Qed.

Lemma is_byte_land_id (x : Z) : is_byte x -> Z.land x 0xFF = x.
Proof.
  unfold is_byte. intros H. change 0xFF with (Z.ones 8).
  rewrite Z.land_ones by lia. change (2 ^ 8) with 256.
  apply Z.mod_small. lia.
Qed.

Lemma land_lxor_distr (a b m : Z) :
  Z.land (Z.lxor a b) m = Z.lxor (Z.land a m) (Z.land b m).
Proof.
  apply Z.bits_inj'. intros n Hn.
  rewrite Z.land_spec, !Z.lxor_spec, !Z.land_spec.
  now destruct (Z.testbit a n), (Z.testbit b n), (Z.testbit m n).
Qed.

Lemma is_byte_lxor (a b : Z) : is_byte a -> is_byte b -> is_byte (Z.lxor a b).
Proof.
  intros Ha Hb.
  rewrite <- (is_byte_land_id a Ha), <- (is_byte_land_id b Hb).
  rewrite <- land_lxor_distr. apply is_byte_land.
Qed.

Lemma fold_lxor_acc (data : bytes) (a : Z) :
  fold_left (fun checksum b => Z.lxor checksum b) data a
  = Z.lxor a (crc_xor data).
Proof.
  unfold crc_xor. revert a.
  induction data as [|b data IH]; intros a; simpl.
  - now rewrite Z.lxor_0_r.
  - rewrite (IH (Z.lxor a b)), (IH (Z.lxor 0 b)).
    now rewrite Z.lxor_0_l, Z.lxor_assoc.
Qed.

Lemma crc_xor_cons (b : Z) (data : bytes) :
  crc_xor (b :: data) = Z.lxor b (crc_xor data).
Proof. unfold crc_xor at 1. simpl. apply fold_lxor_acc. Qed.

Lemma crc_xor_app (l1 l2 : bytes) :
  crc_xor (l1 ++ l2) = Z.lxor (crc_xor l1) (crc_xor l2).
Proof.
  unfold crc_xor at 1. rewrite fold_left_app.
  fold (crc_xor l1). apply fold_lxor_acc.
Qed.

Lemma crc_xor_is_byte (data : bytes) : is_bytes data -> is_byte (crc_xor data).
Proof.
  induction 1 as [|b data Hb _ IH].
  - unfold is_byte, crc_xor. simpl. lia.
  - rewrite crc_xor_cons. now apply is_byte_lxor.
Qed.

(** Flipping bits of one element flips the same bits of the checksum. *)
Lemma crc_xor_alter (data : bytes) (i : nat) (m : Z) :
  (i < length data)%nat ->
  crc_xor (alter (fun b => Z.lxor b m) i data) = Z.lxor (crc_xor data) m.
Proof.
  revert i. induction data as [|b data IH]; intros i Hi; simpl in Hi.
  - lia.
  - destruct i as [|i]; simpl.
    + rewrite !crc_xor_cons.
      rewrite !Z.lxor_assoc. f_equal. apply Z.lxor_comm.
    + change (crc_xor (b :: alter (fun b0 => Z.lxor b0 m) i data)
              = Z.lxor (crc_xor (b :: data)) m).
      rewrite !crc_xor_cons, IH by lia. now rewrite Z.lxor_assoc.
Qed.

Lemma lxor_fixed (c m : Z) : Z.lxor c m = c -> m = 0.
Proof.
  intros H.
  assert (Hm : Z.lxor c (Z.lxor c m) = m)
    by now rewrite <- Z.lxor_assoc, Z.lxor_nilpotent, Z.lxor_0_l.
  rewrite H, Z.lxor_nilpotent in Hm. congruence.
Qed.

Lemma bit_nonzero (k : Z) : 0 <= k -> Z.shiftl 1 k <> 0.
Proof.
  intros Hk. rewrite Z.shiftl_1_l.
  pose proof (Z.pow_pos_nonneg 2 k). lia.
Qed.

Lemma flip_changes (c k : Z) : 0 <= k -> Z.lxor c (Z.shiftl 1 k) <> c.
Proof. intros Hk H. apply lxor_fixed in H. now apply (bit_nonzero k). Qed.

(** ** Indexing and slicing *)

Lemma getitem_lookup (data : bytes) (i : Z) (b : Z) :
  0 <= i -> data !! Z.to_nat i = Some b -> getitem data i = Ok b.
Proof.
  intros Hi Hb. unfold getitem.
  destruct (Z.ltb_spec i 0) as [?|_]; [lia|].
  destruct (Z.ltb_spec i 0) as [?|_]; [lia|].
  now rewrite Hb.
Qed.

Lemma slice_nonneg (data : bytes) (lo hi : Z) :
  0 <= lo <= hi -> hi <= len data ->
  slice data lo hi = take (Z.to_nat (hi - lo)) (drop (Z.to_nat lo) data).
Proof.
  intros Hlo Hhi. unfold slice, clip.
  destruct (Z.ltb_spec hi 0) as [?|_]; [lia|].
  destruct (Z.ltb_spec lo 0) as [?|_]; [lia|].
  rewrite !Z.min_l by lia. f_equal. lia.
Qed.

Lemma slice_length (data : bytes) (lo hi : Z) :
  0 <= lo <= hi -> hi <= len data -> len (slice data lo hi) = hi - lo.
Proof.
  intros Hlo Hhi. rewrite slice_nonneg by assumption.
  unfold len in *. rewrite length_take, length_drop. lia.
Qed.

Lemma slice_lookup (data : bytes) (lo hi : Z) (j : nat) :
  0 <= lo <= hi -> hi <= len data -> (Z.of_nat j < hi - lo) ->
  slice data lo hi !! j = data !! (Z.to_nat lo + j)%nat.
Proof.
  intros Hlo Hhi Hj. rewrite slice_nonneg by assumption.
  rewrite lookup_take_lt by lia. apply lookup_drop.
Qed.

(** [data[:-1]] drops the last byte. *)
Lemma slice_init (data : bytes) :
  slice data 0 (-1) = take (length data - 1) data.
Proof.
  unfold slice, clip, len. simpl.
  rewrite Z.min_l by lia. simpl. rewrite Nat.sub_0_r. f_equal. lia.
Qed.

(** ** build_frame *)

Lemma append_byte (frame : bytes) (b : Z) :
  is_byte b -> append frame b = Ok (frame ++ [b]).
Proof. intros Hb. unfold append. now rewrite in_range_256_true. Qed.

Lemma wire_head_is_bytes (e s q : Z) (payload : bytes) :
  is_bytes payload -> len payload <= 32 ->
  is_bytes (wire_head e s q payload).
Proof.
  intros Hp Hlen. unfold wire_head, is_bytes.
  apply Forall_app. split; [|exact Hp].
  repeat apply Forall_cons_2; try apply is_byte_land;
    try (unfold is_byte, len in *; lia).
  apply Forall_nil_2.
Qed.

Lemma wire_frame_is_bytes (e s q : Z) (payload : bytes) :
  is_bytes payload -> len payload <= 32 ->
  is_bytes (wire_frame e s q payload).
Proof.
  intros Hp Hlen. unfold wire_frame, is_bytes.
  apply Forall_app. split; [now apply wire_head_is_bytes|].
  apply Forall_cons_2; [|apply Forall_nil_2].
  apply crc_xor_is_byte. now apply wire_head_is_bytes.
Qed.

(** [build_frame] rejects an oversized payload whatever the other
    arguments are. *)
Lemma build_frame_too_long (e s q : Z) (payload : bytes) :
  len payload > 32 ->
  build_frame e s q payload = Raise (ValueError "payload too long").
Proof.
  intros Hlen. unfold build_frame, MAX_PAYLOAD.
  destruct (Z.gtb_spec (len payload) 32) as [_|?]; [reflexivity | lia].
Qed.

Lemma bind_Ok {A B} (a : A) (f : A -> result B) : (Ok a ≫= f) = f a.
Proof. reflexivity. Qed.

(** Otherwise it produces the frame of the wire table: [& 0xFF] keeps every
    [append] in range. *)
Lemma build_frame_wire (e s q : Z) (payload : bytes) :
  is_bytes payload -> len payload <= 32 ->
  build_frame e s q payload = Ok (wire_frame e s q payload).
Proof.
  intros Hp Hlen. unfold build_frame, MAX_PAYLOAD.
  destruct (Z.gtb_spec (len payload) 32) as [?|_]; [lia|].
  change (bytes_of [Z.land (Z.shiftr FRAME_HEADER 8) 255;
                    Z.land FRAME_HEADER 255])
    with (@Ok (list Z) [0xAA; 0x55]).
  rewrite bind_Ok. cbn [app].
  rewrite append_byte, bind_Ok by (unfold is_byte, PROTOCOL_VERSION; lia).
  rewrite append_byte, bind_Ok by apply is_byte_land.
  rewrite append_byte, bind_Ok by apply is_byte_land.
  rewrite append_byte, bind_Ok by apply is_byte_land.
  rewrite append_byte, bind_Ok by (unfold is_byte, len in *; lia).
  rewrite append_byte, bind_Ok.
  - reflexivity.
  - apply crc_xor_is_byte.
    now apply (wire_head_is_bytes e s q payload).
Qed.

Lemma wire_frame_length (e s q : Z) (payload : bytes) :
  length (wire_frame e s q payload) = (8 + length payload)%nat.
Proof. unfold wire_frame, wire_head. rewrite !length_app. simpl. lia. Qed.

Lemma wire_frame_take (e s q : Z) (payload : bytes) :
  take (7 + length payload) (wire_frame e s q payload)
  = wire_head e s q payload.
Proof.
  unfold wire_frame.
  replace (7 + length payload)%nat with (length (wire_head e s q payload))
    by (unfold wire_head; rewrite length_app; simpl; lia).
  apply take_app_length.
Qed.

Lemma wire_frame_checksum (e s q : Z) (payload : bytes) :
  wire_frame e s q payload !! (7 + length payload)%nat
  = Some (crc_xor (wire_head e s q payload)).
Proof.
  unfold wire_frame.
  replace (7 + length payload)%nat with (length (wire_head e s q payload) + 0)%nat
    by (unfold wire_head; rewrite length_app; simpl; lia).
  now rewrite lookup_app_r, Nat.add_comm, Nat.add_sub by lia.
Qed.

(** ** parse_ack *)

(** [parse_ack] on a buffer of at least nine bytes, with the seven header
    reads resolved: the four checks in the order the code makes them. *)
Lemma parse_ack_checks (data : bytes) (d0 d1 v e s q dl : Z) :
  9 <= len data ->
  data !! 0%nat = Some d0 -> data !! 1%nat = Some d1 ->
  data !! 2%nat = Some v -> data !! 3%nat = Some e ->
  data !! 4%nat = Some s -> data !! 5%nat = Some q ->
  data !! 6%nat = Some dl ->
  parse_ack data =
    if negb (Z.lor (Z.shiftl d0 8) d1 =? FRAME_HEADER)
    then Raise (ValueError "Invalid header")
    else if negb (v =? PROTOCOL_VERSION)
    then Raise (ValueError "Protocol version mismatch")
    else if 7 + dl >=? len data
    then Raise (ValueError "ACK data length mismatch")
    else
      checksum ← getitem data (7 + dl);
      if negb (checksum =? crc_xor (slice data 0 (-1)))
      then Raise (ValueError "Checksum mismatch")
      else Ok (ack_of e s q (slice data 7 (7 + dl))).
Proof.
  intros Hlen H0 H1 H2 H3 H4 H5 H6. unfold parse_ack.
  destruct (Z.ltb_spec (len data) 9) as [?|_]; [lia|].
  rewrite (getitem_lookup data 0 d0), bind_Ok by (assumption || lia).
  rewrite (getitem_lookup data 1 d1), bind_Ok by (assumption || lia).
  cbv zeta.
  destruct (negb (Z.lor (Z.shiftl d0 8) d1 =? FRAME_HEADER)); [reflexivity|].
  rewrite (getitem_lookup data 2 v), bind_Ok by (assumption || lia).
  destruct (negb (v =? PROTOCOL_VERSION)); [reflexivity|].
  rewrite (getitem_lookup data 3 e), bind_Ok by (assumption || lia).
  rewrite (getitem_lookup data 4 s), bind_Ok by (assumption || lia).
  rewrite (getitem_lookup data 5 q), bind_Ok by (assumption || lia).
  rewrite (getitem_lookup data 6 dl), bind_Ok by (assumption || lia).
  reflexivity.
Qed.

(** A buffer of nine bytes or more has its seven header bytes. *)
Lemma header_bytes (data : bytes) :
  9 <= len data ->
  exists d0 d1 v e s q dl,
    data !! 0%nat = Some d0 /\ data !! 1%nat = Some d1 /\
    data !! 2%nat = Some v /\ data !! 3%nat = Some e /\
    data !! 4%nat = Some s /\ data !! 5%nat = Some q /\
    data !! 6%nat = Some dl.
Proof.
  unfold len. intros Hlen.
  do 7 (destruct data as [|? data]; [simpl in Hlen; lia|]).
  repeat eexists.
Qed.

Lemma parse_ack_short (data : bytes) :
  len data < 9 -> parse_ack data = Raise (ValueError "ACK frame too short").
Proof.
  intros Hlen. unfold parse_ack.
  destruct (Z.ltb_spec (len data) 9) as [_|?]; [reflexivity | lia].
Qed.

(** A buffer that holds exactly one frame (header, [dl] payload bytes and the
    checksum byte [c]) is accepted exactly when [c] is the XOR of the bytes
    before it. *)
Lemma parse_ack_exact (data : bytes) (e s q dl c : Z) :
  1 <= dl -> len data = 8 + dl ->
  data !! 0%nat = Some 0xAA -> data !! 1%nat = Some 0x55 ->
  data !! 2%nat = Some 0x01 -> data !! 3%nat = Some e ->
  data !! 4%nat = Some s -> data !! 5%nat = Some q ->
  data !! 6%nat = Some dl ->
  data !! Z.to_nat (7 + dl) = Some c ->
  parse_ack data =
    if c =? crc_xor (take (Z.to_nat (7 + dl)) data)
    then Ok (ack_of e s q (slice data 7 (7 + dl)))
    else Raise (ValueError "Checksum mismatch").
Proof.
  intros Hdl Hlen H0 H1 H2 H3 H4 H5 H6 Hc.
  rewrite (parse_ack_checks data _ _ _ _ _ _ _ ltac:(lia) H0 H1 H2 H3 H4 H5 H6).
  change (negb (Z.lor (Z.shiftl 170 8) 85 =? FRAME_HEADER)) with false.
  change (negb (1 =? PROTOCOL_VERSION)) with false. cbv iota.
  destruct (Z.geb_spec (7 + dl) (len data)) as [?|_]; [lia|].
  rewrite (getitem_lookup data (7 + dl) c), bind_Ok by (assumption || lia).
  rewrite slice_init.
  replace (length data - 1)%nat with (Z.to_nat (7 + dl)) by (unfold len in Hlen; lia).
  now destruct (c =? crc_xor (take (Z.to_nat (7 + dl)) data)).
Qed.

Lemma to_nat_7_len (payload : bytes) :
  Z.to_nat (7 + len payload) = (7 + length payload)%nat.
Proof. unfold len. lia. Qed.

Lemma wire_frame_slice (e s q : Z) (payload : bytes) :
  slice (wire_frame e s q payload) 7 (7 + len payload) = payload.
Proof.
  rewrite slice_nonneg.
  - replace (Z.to_nat (7 + len payload - 7)) with (length payload)
      by (unfold len; lia).
    unfold wire_frame, wire_head. rewrite <- app_assoc.
    change (Z.to_nat 7) with 7%nat. cbn [app drop].
    apply take_app_length.
  - unfold len. lia.
  - unfold len. rewrite wire_frame_length. lia.
Qed.

(** Decoding an encoded frame with at least one payload byte gives back the
    three header fields as they were written, masked to a byte. *)
Lemma parse_ack_wire_frame (e s q : Z) (payload : bytes) :
  1 <= len payload ->
  parse_ack (wire_frame e s q payload)
  = Ok (ack_of (Z.land e 0xFF) (Z.land s 0xFF) (Z.land q 0xFF) payload).
Proof.
  intros Hlen.
  rewrite (parse_ack_exact (wire_frame e s q payload)
             (Z.land e 0xFF) (Z.land s 0xFF) (Z.land q 0xFF) (len payload)
             (crc_xor (wire_head e s q payload)));
    try reflexivity; try assumption.
  - rewrite to_nat_7_len, wire_frame_take, Z.eqb_refl.
    now rewrite wire_frame_slice.
  - unfold len. rewrite wire_frame_length. lia.
  - rewrite to_nat_7_len. apply wire_frame_checksum.
Qed.

(** ** Bit flips in an encoded frame *)

Lemma flip_bit_length (frame : bytes) (i : nat) (k : Z) :
  length (flip_bit frame i k) = length frame.
Proof. apply length_alter. Qed.

Lemma flip_bit_other (frame : bytes) (i j : nat) (k : Z) :
  i <> j -> flip_bit frame i k !! j = frame !! j.
Proof. intros Hij. now apply list_lookup_alter_ne. Qed.

Lemma flip_bit_same (frame : bytes) (i : nat) (k b : Z) :
  frame !! i = Some b ->
  flip_bit frame i k !! i = Some (Z.lxor b (Z.shiftl 1 k)).
Proof.
  intros Hb. unfold flip_bit. now rewrite list_lookup_alter_eq, Hb.
Qed.

(** A flip in the magic is caught by the header check. *)
Lemma flip_header (e s q : Z) (payload : bytes) (i : nat) (k : Z) :
  1 <= len payload -> (i < 2)%nat -> 0 <= k < 8 ->
  parse_ack (flip_bit (wire_frame e s q payload) i k)
  = Raise (ValueError "Invalid header").
Proof.
  intros Hlen Hi Hk.
  set (frame := flip_bit (wire_frame e s q payload) i k).
  assert (Hl : 9 <= len frame).
  { unfold len, frame. rewrite flip_bit_length, wire_frame_length.
    unfold len in Hlen. lia. }
  destruct (header_bytes frame Hl)
    as (d0 & d1 & v & e' & s' & q' & dl & H0 & H1 & H2 & H3 & H4 & H5 & H6).
  rewrite (parse_ack_checks frame _ _ _ _ _ _ _ Hl H0 H1 H2 H3 H4 H5 H6).
  assert (Hhdr : negb (Z.lor (Z.shiftl d0 8) d1 =? FRAME_HEADER) = true);
    [|now rewrite Hhdr].
  unfold frame in H0, H1.
  destruct i as [|[|i]]; [| |lia].
  - rewrite (flip_bit_same _ 0 k 0xAA) in H0 by reflexivity.
    rewrite flip_bit_other in H1 by lia.
    injection H0 as <-. injection H1 as <-.
    each_bit k; reflexivity.
  - rewrite (flip_bit_same _ 1 k 0x55) in H1 by reflexivity.
    rewrite flip_bit_other in H0 by lia.
    injection H0 as <-. injection H1 as <-.
    each_bit k; reflexivity.
Qed.

(** A flip in the version byte is caught by the version check. *)
Lemma flip_version (e s q : Z) (payload : bytes) (k : Z) :
  1 <= len payload -> 0 <= k < 8 ->
  parse_ack (flip_bit (wire_frame e s q payload) 2 k)
  = Raise (ValueError "Protocol version mismatch").
Proof.
  intros Hlen Hk.
  set (frame := flip_bit (wire_frame e s q payload) 2 k).
  assert (Hl : 9 <= len frame).
  { unfold len, frame. rewrite flip_bit_length, wire_frame_length.
    unfold len in Hlen. lia. }
  destruct (header_bytes frame Hl)
    as (d0 & d1 & v & e' & s' & q' & dl & H0 & H1 & H2 & H3 & H4 & H5 & H6).
  rewrite (parse_ack_checks frame _ _ _ _ _ _ _ Hl H0 H1 H2 H3 H4 H5 H6).
  unfold frame in H0, H1, H2.
  rewrite flip_bit_other in H0, H1 by lia.
  rewrite (flip_bit_same _ 2 k 0x01) in H2 by reflexivity.
  injection H0 as <-. injection H1 as <-. injection H2 as <-.
  each_bit k; reflexivity.
Qed.

Lemma lxor_clear_bit (n k : Z) :
  0 <= k -> Z.testbit n k = false ->
  Z.lxor n (Z.shiftl 1 k) = n + 2 ^ k.
Proof.
  intros Hk Hbit. rewrite Z.shiftl_1_l. symmetry.
  apply Z.add_nocarry_lxor. apply Z.bits_inj'. intros j Hj.
  rewrite Z.land_spec, Z.bits_0, Z.pow2_bits_eqb by lia.
  destruct (Z.eqb_spec k j) as [->|_].
  - now rewrite Hbit.
  - apply andb_false_r.
Qed.

(** A flip that sets a bit of the length byte makes the declared payload run
    past the buffer. *)
Lemma flip_length_up (e s q : Z) (payload : bytes) (k : Z) :
  1 <= len payload -> 0 <= k < 8 -> Z.testbit (len payload) k = false ->
  parse_ack (flip_bit (wire_frame e s q payload) 6 k)
  = Raise (ValueError "ACK data length mismatch").
Proof.
  intros Hlen Hk Hbit.
  set (frame := flip_bit (wire_frame e s q payload) 6 k).
  assert (Hl : len frame = 8 + len payload).
  { unfold len, frame. rewrite flip_bit_length, wire_frame_length. lia. }
  destruct (header_bytes frame ltac:(lia))
    as (d0 & d1 & v & e' & s' & q' & dl & H0 & H1 & H2 & H3 & H4 & H5 & H6).
  rewrite (parse_ack_checks frame _ _ _ _ _ _ _ ltac:(lia) H0 H1 H2 H3 H4 H5 H6).
  unfold frame in H0, H1, H2, H6.
  rewrite flip_bit_other in H0, H1, H2 by lia.
  rewrite (flip_bit_same _ 6 k (len payload)) in H6 by reflexivity.
  injection H0 as <-. injection H1 as <-. injection H2 as <-.
  injection H6 as <-.
  change (negb (Z.lor (Z.shiftl 170 8) 85 =? FRAME_HEADER)) with false.
  change (negb (Z.land 1 255 =? PROTOCOL_VERSION)) with false.
  change (negb (1 =? PROTOCOL_VERSION)) with false. cbv iota.
  rewrite lxor_clear_bit by (assumption || lia).
  pose proof (Z.pow_pos_nonneg 2 k ltac:(lia) ltac:(lia)).
  destruct (Z.geb_spec (7 + (len payload + 2 ^ k)) (len frame)) as [_|?];
    [reflexivity | lia].
Qed.

(** A flip in the event, subevent or sequence byte, in the payload or in the
    checksum byte leaves the first three checks untouched and breaks the
    equality of the last one. *)
Lemma flip_checksum (e s q : Z) (payload : bytes) (i : nat) (k : Z) :
  1 <= len payload -> 0 <= k < 8 ->
  (3 <= i)%nat -> i <> 6%nat -> (i < 8 + length payload)%nat ->
  parse_ack (flip_bit (wire_frame e s q payload) i k)
  = Raise (ValueError "Checksum mismatch").
Proof.
  intros Hlen Hk Hi3 Hi6 Hi.
  set (frame := flip_bit (wire_frame e s q payload) i k).
  assert (Hl : len frame = 8 + len payload).
  { unfold len, frame. rewrite flip_bit_length, wire_frame_length. lia. }
  destruct (header_bytes frame ltac:(lia))
    as (d0 & d1 & v & e' & s' & q' & dl & H0 & H1 & H2 & H3 & H4 & H5 & H6).
  assert (Hc : exists c, frame !! Z.to_nat (7 + len payload) = Some c).
  { apply lookup_lt_is_Some. unfold len in *. lia. }
  destruct Hc as [c Hc].
  assert (Hne : c <> crc_xor (take (Z.to_nat (7 + len payload)) frame)).
  { rewrite to_nat_7_len in *. unfold frame in Hc |- *. unfold flip_bit in *.
    destruct (decide (i = 7 + length payload)%nat) as [->|Hlast].
    - rewrite take_alter_ge, wire_frame_take by lia.
      rewrite list_lookup_alter_eq, wire_frame_checksum in Hc.
      injection Hc as <-. apply flip_changes. lia.
    - rewrite take_alter_lt, wire_frame_take by lia.
      rewrite list_lookup_alter_ne, wire_frame_checksum in Hc by lia.
      injection Hc as <-.
      rewrite crc_xor_alter.
      + intros Heq. symmetry in Heq. revert Heq. apply flip_changes. lia.
      + unfold wire_head. rewrite length_app. simpl. lia. }
  assert (G0 : frame !! 0%nat = Some 0xAA)
    by (unfold frame; now rewrite flip_bit_other by lia).
  assert (G1 : frame !! 1%nat = Some 0x55)
    by (unfold frame; now rewrite flip_bit_other by lia).
  assert (G2 : frame !! 2%nat = Some 0x01)
    by (unfold frame; now rewrite flip_bit_other by lia).
  assert (G6 : frame !! 6%nat = Some (len payload))
    by (unfold frame; now rewrite flip_bit_other by lia).
  rewrite (parse_ack_exact frame e' s' q' (len payload) c
             Hlen Hl G0 G1 G2 H3 H4 H5 G6 Hc).
  apply Z.eqb_neq in Hne. now rewrite Hne.
Qed.

(** ** The coroutine, step by step *)

Lemma ack_handler_run (data : bytes) (st : env) :
  ack_handler data st =
    match parse_ack data with
    | Ok a => (Ok tt, mkEnv (calls st) (subscribed st) (notify_started st)
                            (Some a))
    | Raise e =>
        (Ok tt, mkEnv (calls st ++ [StWarning ("Failed to parse ACK: " +:+ str e)])
                      (subscribed st) (notify_started st) (ack_received st))
    end.
Proof.
  unfold ack_handler, try_except, lift, mbind, IO_bind.
  now destruct (parse_ack data).
Qed.

(** The handler never raises: every notification is consumed, a malformed
    one leaves a warning and the previous [ack_received]. *)
Lemma deliver_run (notifications : list bytes) (st : env) :
  deliver ack_handler notifications st =
    (Ok tt, mkEnv (calls st ++ parse_warnings notifications)
                  (subscribed st) (notify_started st)
                  (last_ack notifications (ack_received st))).
Proof.
  revert st. induction notifications as [|data rest IH]; intros st.
  - destruct st. cbn. now rewrite app_nil_r.
  - cbn [deliver]. unfold mbind at 1, IO_bind at 1.
    rewrite ack_handler_run.
    unfold parse_warnings, last_ack. cbn [flat_map fold_left].
    unfold parse_warning at 1.
    destruct (parse_ack data) as [a|ex]; rewrite IH; cbn [calls subscribed
      notify_started ack_received]; unfold parse_warnings, last_ack.
    + reflexivity.
    + now rewrite <- app_assoc.
Qed.

(** [03_ws2812_config_ui.py]: the outcome and the calls of one
    [send_command] on a connected client, once the frame is built. *)
Lemma send_command_03_run (script : Script) (self : WS2812Controller)
    (e s : Z) (payload frame : bytes) (st : env) :
  not_connected self = false -> import_ok script = true ->
  build_frame e s 1 payload = Ok frame ->
  ConfigUi03.send_command script self e s payload st =
    match on_start_notify script with
    | Some ex =>
        (Raise (Exception ("Command send error: " +:+ str ex)),
         mkEnv (calls st ++ [StartNotify UUID_CHAR_COMMAND])
               (subscribed st) false None)
    | None =>
        match on_write script with
        | Some ex =>
            (Raise (Exception ("Command send error: " +:+ str ex)),
             mkEnv (calls st ++ [StartNotify UUID_CHAR_COMMAND;
                                 WriteGattChar UUID_CHAR_COMMAND frame;
                                 StopNotify UUID_CHAR_COMMAND]
                             ++ stop_warning script)
                   (after_stop script) true None)
        | None =>
            (Ok (last_ack (incoming script) None),
             mkEnv (calls st ++ [StartNotify UUID_CHAR_COMMAND;
                                 WriteGattChar UUID_CHAR_COMMAND frame;
                                 Sleep 2]
                             ++ parse_warnings (incoming script)
                             ++ [StopNotify UUID_CHAR_COMMAND]
                             ++ stop_warning script)
                   (after_stop script) true
                   (last_ack (incoming script) None))
        end
    end.
Proof.
  intros Hconn Himp Hframe. unfold ConfigUi03.send_command.
  rewrite Hconn. run_io. rewrite Himp, Hframe.
  unfold stop_warning, after_stop.
  destruct (on_start_notify script) as [ex|]; cbn.
  { reflexivity. }
  destruct (on_write script) as [ex|]; cbn.
  { destruct (on_stop_notify script); cbn; now rewrite <- !app_assoc. }
  rewrite deliver_run. cbn.
  destruct (on_stop_notify script); cbn; now rewrite <- !app_assoc.
Qed.

(** [ws2812_config_ui.py]: the same for the version without [try]. *)
Lemma send_command_run (script : Script) (self : WS2812Controller)
    (e s : Z) (payload frame : bytes) (st : env) :
  not_connected self = false -> import_ok script = true ->
  build_frame e s 1 payload = Ok frame ->
  ConfigUi.send_command script self e s payload st =
    match on_start_notify script with
    | Some ex =>
        (Raise ex,
         mkEnv (calls st ++ [StartNotify UUID_CHAR_COMMAND])
               (subscribed st) (notify_started st) None)
    | None =>
        match on_write script with
        | Some ex =>
            (Raise ex,
             mkEnv (calls st ++ [StartNotify UUID_CHAR_COMMAND;
                                 WriteGattChar UUID_CHAR_COMMAND frame])
                   true (notify_started st) None)
        | None =>
            (match on_stop_notify script with
             | Some ex => Raise ex
             | None => Ok (last_ack (incoming script) None)
             end,
             mkEnv (calls st ++ [StartNotify UUID_CHAR_COMMAND;
                                 WriteGattChar UUID_CHAR_COMMAND frame;
                                 Sleep 2]
                             ++ parse_warnings (incoming script)
                             ++ [StopNotify UUID_CHAR_COMMAND])
                   (after_stop script) (notify_started st)
                   (last_ack (incoming script) None))
        end
    end.
Proof.
  intros Hconn Himp Hframe. unfold ConfigUi.send_command.
  rewrite Hconn. run_io. rewrite Himp, Hframe. unfold after_stop.
  destruct (on_start_notify script) as [ex|]; cbn.
  { reflexivity. }
  destruct (on_write script) as [ex|]; cbn.
  { now rewrite <- !app_assoc. }
  rewrite deliver_run. cbn.
  destruct (on_stop_notify script); cbn; now rewrite <- !app_assoc.
Qed.

(** * Properties stated by the specification *)

(** ** FrameCodec *)

(** The frame of a command without payload is eight bytes long, one short of
    what [parse_ack] asks for first: the round trip fails there. *)
Lemma roundtrip_empty_payload_too_short :
  build_frame 0x10 0xFF 1 [] = Ok [0xAA; 0x55; 0x01; 0x10; 0xFF; 0x01; 0x00; 0x10]
  /\ parse_ack [0xAA; 0x55; 0x01; 0x10; 0xFF; 0x01; 0x00; 0x10]
     = Raise (ValueError "ACK frame too short").
Proof. split; reflexivity. Qed.

(** C1 (as amended). For every event, subevent and sequence in 0..255 and
    every payload of 1 to 32 bytes, [build_frame] succeeds and [parse_ack] of
    its output succeeds and returns the same event, subevent and sequence
    (and the first payload byte as status). The empty payload is left out:
    its frame has 8 bytes and [parse_ack] requires 9. *)
Theorem roundtrip_nonempty_payload (e s q : Z) (payload : bytes) :
  is_byte e -> is_byte s -> is_byte q -> is_bytes payload ->
  1 <= len payload <= 32 ->
  exists frame ack,
    build_frame e s q payload = Ok frame /\
    parse_ack frame = Ok ack /\
    event ack = e /\ sub_event ack = s /\ sequence ack = q /\
    status ack = payload !! 0%nat.
Proof.
  intros He Hs Hq Hp [Hlo Hhi].
  exists (wire_frame e s q payload).
  exists (ack_of (Z.land e 0xFF) (Z.land s 0xFF) (Z.land q 0xFF) payload).
  split; [now apply build_frame_wire|].
  split; [now apply parse_ack_wire_frame|].
  cbn [ack_of event sub_event sequence status].
  rewrite !is_byte_land_id by assumption.
  repeat split. destruct payload; [unfold len in Hlo; simpl in Hlo; lia|].
  reflexivity.
Qed.

Lemma roundtrip_nonempty_payload_witness :
  exists frame ack,
    build_frame 0x10 0x01 1 [0x00; 0x10; 0x01] = Ok frame /\
    parse_ack frame = Ok ack /\
    event ack = 0x10 /\ sub_event ack = 0x01 /\ sequence ack = 1 /\
    status ack = [0x00; 0x10; 0x01] !! 0%nat.
Proof.
  apply (roundtrip_nonempty_payload 0x10 0x01 1 [0x00; 0x10; 0x01]).
  - unfold is_byte. lia.
  - unfold is_byte. lia.
  - unfold is_byte. lia.
  - repeat constructor; unfold is_byte; lia.
  - unfold len. simpl. lia.
Defined.

(** The literal frame of the specification, and its two decoding examples:
    an eight-byte buffer and swapped magic bytes. *)
Example build_frame_literal :
  build_frame 0x10 0x01 1 [0x01]
  = Ok [0xAA; 0x55; 0x01; 0x10; 0x01; 0x01; 0x01; 0x01; 0xEE].
Proof. reflexivity. Qed.

Example parse_ack_eight_bytes :
  parse_ack [0xAA; 0x55; 0x01; 0x10; 0x01; 0x01; 0x00; 0xEE]
  = Raise (ValueError "ACK frame too short").
Proof. reflexivity. Qed.

Example parse_ack_swapped_header :
  parse_ack [0x55; 0xAA; 0x01; 0x10; 0x01; 0x01; 0x01; 0x01; 0xEE]
  = Raise (ValueError "Invalid header").
Proof. reflexivity. Qed.

(** C5. The checksum byte is read at offset [7 + data_len], but the XOR is
    taken over [data[:-1]]: when the buffer is longer than the frame the two
    disagree. A correct ack frame followed by one more byte is rejected with
    "Checksum mismatch" although its checksum byte is the XOR of the frame
    bytes before it, and a buffer whose checksum byte (5) differs from that
    XOR (0) is accepted. *)
Theorem parse_ack_checksum_trailing_bytes :
  crc_xor [0xAA; 0x55; 0x01; 0x10; 0x01; 0x01; 0x01; 0x00] = 0xEF
  /\ parse_ack [0xAA; 0x55; 0x01; 0x10; 0x01; 0x01; 0x01; 0x00; 0xEF]
     = Ok (mkAck 0x10 0x01 1 (Some 0) None None)
  /\ parse_ack [0xAA; 0x55; 0x01; 0x10; 0x01; 0x01; 0x01; 0x00; 0xEF; 0x00]
     = Raise (ValueError "Checksum mismatch")
  /\ crc_xor [0xAA; 0x55; 0x01; 0xFE; 0x00; 0x00; 0x00] = 0
  /\ parse_ack [0xAA; 0x55; 0x01; 0xFE; 0x00; 0x00; 0x00; 0x05; 0x07]
     = Ok (mkAck 0xFE 0 0 None None None).
Proof. repeat split; reflexivity. Qed.

(** C6. [build_frame] raises the "payload too long" [ValueError] exactly when
    the payload has more than 32 bytes, whatever the other arguments are, and
    returns a frame exactly when it has at most 32; being a function of its
    four arguments, it gives the same answer on the same input. *)
Theorem build_frame_validation (e s q : Z) (payload : bytes) :
  is_bytes payload ->
  (len payload > 32 <->
     build_frame e s q payload = Raise (ValueError "payload too long"))
  /\ (len payload <= 32 <->
        exists frame, build_frame e s q payload = Ok frame).
Proof.
  intros Hp.
  destruct (Z_le_gt_dec (len payload) 32) as [Hle|Hgt].
  - pose proof (build_frame_wire e s q payload Hp Hle) as Hok.
    split; split; intros H.
    + lia.
    + rewrite Hok in H. discriminate.
    + eauto.
    + exact Hle.
  - pose proof (build_frame_too_long e s q payload Hgt) as Herr.
    split; split; intros H.
    + exact Herr.
    + exact Hgt.
    + lia.
    + destruct H as [frame H]. rewrite Herr in H. discriminate.
Qed.

Lemma build_frame_validation_witness :
  (len (replicate 33 0xFF) > 32 <->
     build_frame 0x10 0x01 1 (replicate 33 0xFF)
     = Raise (ValueError "payload too long"))
  /\ (len (replicate 33 0xFF) <= 32 <->
        exists frame, build_frame 0x10 0x01 1 (replicate 33 0xFF) = Ok frame).
Proof.
  apply (build_frame_validation 0x10 0x01 1 (replicate 33 0xFF)).
  repeat constructor; unfold is_byte; lia.
Defined.

(** The two boundary cases of the specification. *)
Example build_frame_33_rejected :
  build_frame 0x10 0x01 1 (replicate 33 0x00)
  = Raise (ValueError "payload too long").
Proof. reflexivity. Qed.

Example build_frame_32_accepted :
  build_frame 0x10 0x01 1 (replicate 32 0x00)
  = Ok ([0xAA; 0x55; 0x01; 0x10; 0x01; 0x01; 0x20] ++ replicate 32 0x00 ++ [0xCE]).
Proof. reflexivity. Qed.

(** Single-bit flips that are not answered by "Checksum mismatch": in the
    magic, in the version, in the length byte (bit set), and anywhere in the
    8-byte frame of an empty payload. *)
Lemma flip_bit_other_rejections :
  build_frame 0x10 0x01 1 [0x01]
  = Ok [0xAA; 0x55; 0x01; 0x10; 0x01; 0x01; 0x01; 0x01; 0xEE]
  /\ parse_ack (flip_bit [0xAA; 0x55; 0x01; 0x10; 0x01; 0x01; 0x01; 0x01; 0xEE] 0 0)
     = Raise (ValueError "Invalid header")
  /\ parse_ack (flip_bit [0xAA; 0x55; 0x01; 0x10; 0x01; 0x01; 0x01; 0x01; 0xEE] 2 0)
     = Raise (ValueError "Protocol version mismatch")
  /\ parse_ack (flip_bit [0xAA; 0x55; 0x01; 0x10; 0x01; 0x01; 0x01; 0x01; 0xEE] 6 1)
     = Raise (ValueError "ACK data length mismatch")
  /\ build_frame 0x10 0xFF 1 []
     = Ok [0xAA; 0x55; 0x01; 0x10; 0xFF; 0x01; 0x00; 0x10]
  /\ parse_ack (flip_bit [0xAA; 0x55; 0x01; 0x10; 0xFF; 0x01; 0x00; 0x10] 3 0)
     = Raise (ValueError "ACK frame too short").
Proof. repeat split; reflexivity. Qed.

(** C7 (as amended). For every frame that [build_frame] produces from a
    payload of 1 to 32 bytes, and every single-bit flip in it, [parse_ack]
    rejects the corrupted frame with the error of the first check that covers
    the flipped byte: "Invalid header" at offsets 0 and 1, "Protocol version
    mismatch" at offset 2, "Checksum mismatch" at the event, subevent and
    sequence bytes, in the payload and at the checksum byte, and "ACK data
    length mismatch" when the flip sets a bit of the length byte. A flip that
    clears a bit of the length byte is not covered. *)
Theorem flip_bit_rejected (e s q : Z) (payload frame : bytes) (i : nat) (k : Z) :
  is_bytes payload -> 1 <= len payload <= 32 ->
  build_frame e s q payload = Ok frame ->
  (i < length frame)%nat -> 0 <= k < 8 ->
  (i = 6%nat -> Z.testbit (len payload) k = false) ->
  parse_ack (flip_bit frame i k) = Raise (ValueError (rejection_at i)).
Proof.
  intros Hp [Hlo Hhi] Hbuild Hi Hk Hbit.
  rewrite build_frame_wire in Hbuild by assumption.
  injection Hbuild as <-. rewrite wire_frame_length in Hi.
  unfold rejection_at.
  destruct (Nat.ltb_spec i 2) as [Hi2|Hi2]; [now apply flip_header|].
  destruct (Nat.eqb_spec i 2) as [->|Hn2]; [now apply flip_version|].
  destruct (Nat.eqb_spec i 6) as [->|Hn6]; [apply flip_length_up; auto|].
  apply flip_checksum; auto. lia.
Qed.

Lemma flip_bit_rejected_witness :
  parse_ack (flip_bit [0xAA; 0x55; 0x01; 0x10; 0x01; 0x01; 0x01; 0x01; 0xEE] 7 3)
  = Raise (ValueError (rejection_at 7)).
Proof.
  apply (flip_bit_rejected 0x10 0x01 1 [0x01]).
  - repeat constructor; unfold is_byte; lia.
  - unfold len. simpl. lia.
  - reflexivity.
  - simpl. lia.
  - lia.
  - intros H. discriminate H.
Defined.

(** Why a flip that clears a bit of the length byte is not covered: the
    shortened frame is checked against [data[:-1]], and can pass. *)
Example flip_length_down_accepted :
  build_frame 0xFE 0x00 0 [0x09]
  = Ok [0xAA; 0x55; 0x01; 0xFE; 0x00; 0x00; 0x01; 0x09; 0x08]
  /\ parse_ack (flip_bit [0xAA; 0x55; 0x01; 0xFE; 0x00; 0x00; 0x01; 0x09; 0x08] 6 0)
     = Ok (mkAck 0xFE 0 0 None None None).
Proof. split; reflexivity. Qed.

(** C10. On every buffer of bytes that [parse_ack] accepts, the three optional
    fields follow the declared payload length [n] (the byte at offset 6):
    [status] is [None] when [n = 0] and the byte at offset 7 otherwise,
    [ref_event] is [None] when [n < 2] and the byte at offset 8 otherwise,
    [ref_sub] is [None] when [n < 3] and the byte at offset 9 otherwise; a
    short payload is never a reason to reject. *)
Theorem parse_ack_missing_fields (data : bytes) (ack : Ack) (n : Z) :
  is_bytes data ->
  parse_ack data = Ok ack ->
  data !! 6%nat = Some n ->
  status ack = (if n =? 0 then None else data !! 7%nat)
  /\ ref_event ack = (if n <? 2 then None else data !! 8%nat)
  /\ ref_sub ack = (if n <? 3 then None else data !! 9%nat).
Proof.
  intros Hbytes Hok Hn.
  assert (Hlen : 9 <= len data).
  { destruct (Z_lt_le_dec (len data) 9) as [Hs|Hs]; [|exact Hs].
    rewrite parse_ack_short in Hok by exact Hs. discriminate. }
  destruct (header_bytes data Hlen)
    as (d0 & d1 & v & e & s & q & dl & H0 & H1 & H2 & H3 & H4 & H5 & H6).
  rewrite Hn in H6. injection H6 as <-.
  rewrite (parse_ack_checks data _ _ _ _ _ _ _ Hlen H0 H1 H2 H3 H4 H5 Hn) in Hok.
  destruct (negb (Z.lor (Z.shiftl d0 8) d1 =? FRAME_HEADER)); [discriminate|].
  destruct (negb (v =? PROTOCOL_VERSION)); [discriminate|].
  destruct (Z.geb_spec (7 + n) (len data)) as [?|Hidx]; [discriminate|].
  destruct (getitem data (7 + n)) as [c|]; [|discriminate].
  rewrite bind_Ok in Hok.
  destruct (negb (c =? crc_xor (slice data 0 (-1)))); [discriminate|].
  injection Hok as <-.
  assert (Hn0 : 0 <= n).
  { unfold is_bytes in Hbytes. rewrite Forall_lookup in Hbytes.
    apply (Hbytes _ _ Hn). }
  pose proof (slice_length data 7 (7 + n) ltac:(lia) ltac:(lia)) as Hpl.
  cbn [ack_of status ref_event ref_sub]. rewrite Hpl.
  replace (7 + n - 7) with n by lia.
  repeat split.
  - destruct (Z.eqb_spec n 0) as [->|Hnz].
    + destruct (slice data 7 (7 + 0)); [reflexivity|].
      unfold len in Hpl. simpl in Hpl. lia.
    + rewrite (slice_lookup data 7 (7 + n) 0) by lia.
      destruct (slice data 7 (7 + n)); [|reflexivity].
      unfold len in Hpl. simpl in Hpl. lia.
  - destruct (Z.gtb_spec n 1), (Z.ltb_spec n 2); try lia; [|reflexivity].
    now rewrite (slice_lookup data 7 (7 + n) 1) by lia.
  - destruct (Z.gtb_spec n 2), (Z.ltb_spec n 3); try lia; [|reflexivity].
    now rewrite (slice_lookup data 7 (7 + n) 2) by lia.
Qed.

Lemma parse_ack_missing_fields_witness :
  status (mkAck 0xFE 0 0 None None None)
  = (if 0 =? 0 then None
     else [0xAA; 0x55; 0x01; 0xFE; 0x00; 0x00; 0x00; 0x05; 0x07] !! 7%nat)
  /\ ref_event (mkAck 0xFE 0 0 None None None)
     = (if 0 <? 2 then None
        else [0xAA; 0x55; 0x01; 0xFE; 0x00; 0x00; 0x00; 0x05; 0x07] !! 8%nat)
  /\ ref_sub (mkAck 0xFE 0 0 None None None)
     = (if 0 <? 3 then None
        else [0xAA; 0x55; 0x01; 0xFE; 0x00; 0x00; 0x00; 0x05; 0x07] !! 9%nat).
Proof.
  apply (parse_ack_missing_fields
           [0xAA; 0x55; 0x01; 0xFE; 0x00; 0x00; 0x00; 0x05; 0x07]
           (mkAck 0xFE 0 0 None None None) 0).
  - repeat constructor; unfold is_byte; lia.
  - reflexivity.
  - reflexivity.
Defined.

(** ** DeviceDiscovery *)

Lemma match_advertises (d : BLEDevice) (n : string) :
  truthy_name (name d) && name_eq (name d) n = true <-> advertises d n.
Proof.
  unfold advertises, truthy_name, name_eq.
  destruct (name d) as [s|]; [|split; [discriminate | intros [? _]; discriminate]].
  rewrite andb_true_iff, negb_true_iff, String.eqb_neq, String.eqb_eq.
  split.
  - intros [Hne ->]. now split.
  - intros [[= ->] Hne]. now split.
Qed.

Lemma first_match_found (n : string) (devices : list BLEDevice) (a : string) :
  first_match n devices = Some a ->
  exists pre d post,
    devices = pre ++ d :: post /\ advertises d n /\ address d = a /\
    forall d', d' ∈ pre -> ~ advertises d' n.
Proof.
  induction devices as [|d rest IH]; simpl; [discriminate|].
  destruct (truthy_name (name d) && name_eq (name d) n) eqn:Hm.
  - intros [= <-]. exists [], d, rest.
    split; [reflexivity|]. split; [now apply match_advertises|].
    split; [reflexivity|]. intros d' Hin. inversion Hin.
  - intros Hrest.
    destruct (IH Hrest) as (pre & d0 & post & -> & Hadv & Ha & Hpre).
    exists (d :: pre), d0, post.
    split; [reflexivity|]. split; [exact Hadv|]. split; [exact Ha|].
    intros d' Hin. apply elem_of_cons in Hin as [->|Hin].
    + rewrite <- match_advertises, Hm. discriminate.
    + now apply Hpre.
Qed.

Lemma first_match_none (n : string) (devices : list BLEDevice) :
  first_match n devices = None ->
  forall d, d ∈ devices -> ~ advertises d n.
Proof.
  induction devices as [|d rest IH]; simpl; intros Hnone d' Hin.
  - inversion Hin.
  - destruct (truthy_name (name d) && name_eq (name d) n) eqn:Hm;
      [discriminate|].
    apply elem_of_cons in Hin as [->|Hin].
    + rewrite <- match_advertises, Hm. discriminate.
    + now apply IH.
Qed.

(** C9. When the scan itself raises, so does [discover_device_by_name];
    otherwise it returns normally: either the address of the first
    advertisement, in scan order, whose name is exactly the requested one
    (advertisements before it either have no name or another name), or
    [None] when no advertisement in the scan results has that name. *)
Theorem discover_first_exact_match (device_name : string)
    (scanned : result (list BLEDevice)) :
  match scanned with
  | Raise ex => discover_device_by_name device_name scanned = Raise ex
  | Ok devices =>
      (exists pre d post,
          devices = pre ++ d :: post /\
          advertises d device_name /\
          (forall d', d' ∈ pre -> ~ advertises d' device_name) /\
          discover_device_by_name device_name scanned = Ok (Some (address d)))
      \/ ((forall d, d ∈ devices -> ~ advertises d device_name) /\
          discover_device_by_name device_name scanned = Ok None)
  end.
Proof.
  destruct scanned as [devices|ex]; [|reflexivity].
  unfold discover_device_by_name. rewrite bind_Ok.
  destruct (first_match device_name devices) as [a|] eqn:Hfm.
  - left. destruct (first_match_found _ _ _ Hfm)
      as (pre & d & post & Hsplit & Hadv & Ha & Hpre).
    exists pre, d, post. rewrite Ha. auto.
  - right. split; [|reflexivity]. now apply first_match_none.
Qed.

(** No partial or case-insensitive match, and nameless advertisements are
    passed over. *)
Example discover_exact_only :
  discover_device_by_name "HOSHI-MATRIX"
    (Ok [mkDevice None "00:00:00:00:00:01";
         mkDevice (Some "HOSHI-MATRIX-2") "00:00:00:00:00:02";
         mkDevice (Some "hoshi-matrix") "00:00:00:00:00:03";
         mkDevice (Some "HOSHI-MATRIX") "00:00:00:00:00:04";
         mkDevice (Some "HOSHI-MATRIX") "00:00:00:00:00:05"])
  = Ok (Some "00:00:00:00:00:04").
Proof. reflexivity. Qed.

Example discover_not_found :
  discover_device_by_name "X"
    (Ok [mkDevice None "00:00:00:00:00:01";
         mkDevice (Some "HOSHI-MATRIX") "00:00:00:00:00:04"])
  = Ok None.
Proof. reflexivity. Qed.

(** An empty requested name matches nothing, not even an advertisement whose
    name is empty: the truth test on [device.name] comes first. *)
Example discover_empty_name :
  discover_device_by_name "" (Ok [mkDevice (Some "") "00:00:00:00:00:01"])
  = Ok None.
Proof. reflexivity. Qed.

(** ** CommandSession *)

Lemma not_connected_true (self : WS2812Controller) :
  client self = None \/ (exists c, client self = Some c /\ is_connected c = false) ->
  not_connected self = true.
Proof.
  unfold not_connected. intros [-> | (c & -> & ->)]; reflexivity.
Qed.

(** C8. When the controller has no client, or its client reports that it is
    not connected, [send_command] (both versions) raises "Device not
    connected" and leaves the environment as it found it: nothing was
    subscribed, written or logged, and the payload was not even looked at. *)
Theorem send_command_not_connected (script : Script) (self : WS2812Controller)
    (e s : Z) (payload : bytes) (st : env) :
  client self = None \/ (exists c, client self = Some c /\ is_connected c = false) ->
  ConfigUi03.send_command script self e s payload st
  = (Raise (Exception "Device not connected"), st)
  /\ ConfigUi.send_command script self e s payload st
     = (Raise (Exception "Device not connected"), st).
Proof.
  intros H. apply not_connected_true in H.
  unfold ConfigUi03.send_command, ConfigUi.send_command.
  rewrite H. split; reflexivity.
Qed.

Lemma send_command_not_connected_witness :
  ConfigUi03.send_command (mkScript true None None [] None)
    (mkController (Some "AA:BB:CC:DD:EE:FF") (Some (mkClient false)))
    0x10 0x01 (replicate 40 0x00) env0
  = (Raise (Exception "Device not connected"), env0)
  /\ ConfigUi.send_command (mkScript true None None [] None)
       (mkController (Some "AA:BB:CC:DD:EE:FF") (Some (mkClient false)))
       0x10 0x01 (replicate 40 0x00) env0
     = (Raise (Exception "Device not connected"), env0).
Proof.
  apply (send_command_not_connected (mkScript true None None [] None)
           (mkController (Some "AA:BB:CC:DD:EE:FF") (Some (mkClient false)))).
  right. exists (mkClient false). split; reflexivity.
Defined.

Lemma written_frames_app (l1 l2 : list call) :
  written_frames (l1 ++ l2) = written_frames l1 ++ written_frames l2.
Proof. apply omap_app. Qed.

Lemma written_frames_parse_warnings (notifications : list bytes) :
  written_frames (parse_warnings notifications) = [].
Proof.
  induction notifications as [|data rest IH]; [reflexivity|].
  unfold parse_warnings in *. cbn [flat_map].
  rewrite written_frames_app, IH. unfold parse_warning.
  now destruct (parse_ack data).
Qed.

Lemma written_frames_stop_warning (script : Script) :
  written_frames (stop_warning script) = [].
Proof. unfold stop_warning. now destruct (on_stop_notify script). Qed.

(** Once [start_notify] has succeeded, one [send_command] writes exactly one
    frame: the one [build_frame] made with sequence 1. *)
Lemma send_command_03_frames (script : Script) (self : WS2812Controller)
    (e s : Z) (payload frame : bytes) (st : env) :
  not_connected self = false -> import_ok script = true ->
  build_frame e s 1 payload = Ok frame ->
  on_start_notify script = None ->
  written_frames (calls (ConfigUi03.send_command script self e s payload st).2)
  = written_frames (calls st) ++ [frame].
Proof.
  intros Hconn Himp Hframe Hstart.
  rewrite (send_command_03_run _ _ _ _ _ _ _ Hconn Himp Hframe), Hstart.
  destruct (on_write script); cbn [snd calls];
    rewrite !written_frames_app, ?written_frames_parse_warnings,
      ?written_frames_stop_warning; reflexivity.
Qed.

Lemma send_command_frames (script : Script) (self : WS2812Controller)
    (e s : Z) (payload frame : bytes) (st : env) :
  not_connected self = false -> import_ok script = true ->
  build_frame e s 1 payload = Ok frame ->
  on_start_notify script = None ->
  written_frames (calls (ConfigUi.send_command script self e s payload st).2)
  = written_frames (calls st) ++ [frame].
Proof.
  intros Hconn Himp Hframe Hstart.
  rewrite (send_command_run _ _ _ _ _ _ _ Hconn Himp Hframe), Hstart.
  destruct (on_write script); cbn [snd calls];
    rewrite !written_frames_app, ?written_frames_parse_warnings; reflexivity.
Qed.

(** Two sends in a row on a connected client: both frames carry sequence 1,
    where the second should carry 2. *)
Lemma send_twice_same_sequence :
  let script := mkScript true None None [] None in
  let self := mkController (Some "AA:BB:CC:DD:EE:FF") (Some (mkClient true)) in
  let st1 := (ConfigUi03.send_command script self 0x10 0x01 [0x01] env0).2 in
  let st2 := (ConfigUi03.send_command script self 0x10 0x02 [0x01] st1).2 in
  written_frames (calls st2)
  = [[0xAA; 0x55; 0x01; 0x10; 0x01; 0x01; 0x01; 0x01; 0xEE];
     [0xAA; 0x55; 0x01; 0x10; 0x02; 0x01; 0x01; 0x01; 0xED]]
  /\ [0xAA; 0x55; 0x01; 0x10; 0x01; 0x01; 0x01; 0x01; 0xEE] !! 5%nat = Some 1
  /\ [0xAA; 0x55; 0x01; 0x10; 0x02; 0x01; 0x01; 0x01; 0xED] !! 5%nat = Some 1
  /\ 1 <> (1 + 1) mod 256.
Proof. repeat split; try reflexivity. discriminate. Qed.

(** C2 (as amended). There is no sequence counter: on a connected session
    every [send_command] (both versions) that gets past [start_notify] writes
    one frame whose sequence field is the constant 1, so two sends in a row
    emit frames with the same sequence field. *)
Theorem send_sequence_is_constant (script1 script2 : Script)
    (self : WS2812Controller) (e1 s1 e2 s2 : Z) (p1 p2 : bytes) :
  not_connected self = false ->
  import_ok script1 = true -> import_ok script2 = true ->
  on_start_notify script1 = None -> on_start_notify script2 = None ->
  is_bytes p1 -> len p1 <= 32 -> is_bytes p2 -> len p2 <= 32 ->
  exists f1 f2,
    build_frame e1 s1 1 p1 = Ok f1 /\ build_frame e2 s2 1 p2 = Ok f2 /\
    f1 !! 5%nat = Some 1 /\ f2 !! 5%nat = Some 1 /\
    written_frames (calls
      (ConfigUi03.send_command script2 self e2 s2 p2
         (ConfigUi03.send_command script1 self e1 s1 p1 env0).2).2) = [f1; f2] /\
    written_frames (calls
      (ConfigUi.send_command script2 self e2 s2 p2
         (ConfigUi.send_command script1 self e1 s1 p1 env0).2).2) = [f1; f2].
Proof.
  intros Hconn Hi1 Hi2 Hs1 Hs2 Hb1 Hl1 Hb2 Hl2.
  pose proof (build_frame_wire e1 s1 1 p1 Hb1 Hl1) as Hf1.
  pose proof (build_frame_wire e2 s2 1 p2 Hb2 Hl2) as Hf2.
  exists (wire_frame e1 s1 1 p1), (wire_frame e2 s2 1 p2).
  split; [exact Hf1|]. split; [exact Hf2|].
  split; [reflexivity|]. split; [reflexivity|].
  split.
  - rewrite (send_command_03_frames _ _ _ _ _ _ _ Hconn Hi2 Hf2 Hs2).
    now rewrite (send_command_03_frames _ _ _ _ _ _ _ Hconn Hi1 Hf1 Hs1).
  - rewrite (send_command_frames _ _ _ _ _ _ _ Hconn Hi2 Hf2 Hs2).
    now rewrite (send_command_frames _ _ _ _ _ _ _ Hconn Hi1 Hf1 Hs1).
Qed.

Lemma send_sequence_is_constant_witness :
  exists f1 f2,
    build_frame 0x10 0x01 1 [0x01] = Ok f1 /\
    build_frame 0x11 0x00 1 [0x78; 0x56; 0x34; 0x12] = Ok f2 /\
    f1 !! 5%nat = Some 1 /\ f2 !! 5%nat = Some 1 /\
    written_frames (calls
      (ConfigUi03.send_command (mkScript true None None [] None)
         (mkController (Some "AA:BB:CC:DD:EE:FF") (Some (mkClient true)))
         0x11 0x00 [0x78; 0x56; 0x34; 0x12]
         (ConfigUi03.send_command (mkScript true None None [] None)
            (mkController (Some "AA:BB:CC:DD:EE:FF") (Some (mkClient true)))
            0x10 0x01 [0x01] env0).2).2) = [f1; f2] /\
    written_frames (calls
      (ConfigUi.send_command (mkScript true None None [] None)
         (mkController (Some "AA:BB:CC:DD:EE:FF") (Some (mkClient true)))
         0x11 0x00 [0x78; 0x56; 0x34; 0x12]
         (ConfigUi.send_command (mkScript true None None [] None)
            (mkController (Some "AA:BB:CC:DD:EE:FF") (Some (mkClient true)))
            0x10 0x01 [0x01] env0).2).2) = [f1; f2].
Proof.
  apply (send_sequence_is_constant
           (mkScript true None None [] None) (mkScript true None None [] None)
           (mkController (Some "AA:BB:CC:DD:EE:FF") (Some (mkClient true)))
           0x10 0x01 0x11 0x00 [0x01] [0x78; 0x56; 0x34; 0x12]);
    try reflexivity.
  - repeat constructor; unfold is_byte; lia.
  - unfold len. simpl. lia.
  - repeat constructor; unfold is_byte; lia.
  - unfold len. simpl. lia.
Defined.

(** Either [send_command] stops before any call is made, or the client is
    connected, the helpers are imported and the frame is built. *)
Lemma send_command_03_cases (script : Script) (self : WS2812Controller)
    (e s : Z) (payload : bytes) (st : env) :
  calls (ConfigUi03.send_command script self e s payload st).2 = calls st
  \/ (not_connected self = false /\ import_ok script = true /\
      exists frame, build_frame e s 1 payload = Ok frame).
Proof.
  destruct (not_connected self) eqn:Hconn.
  { left. unfold ConfigUi03.send_command. now rewrite Hconn. }
  destruct (import_ok script) eqn:Himp.
  2:{ left. unfold ConfigUi03.send_command. rewrite Hconn. run_io.
      now rewrite Himp. }
  destruct (build_frame e s 1 payload) as [frame|ex] eqn:Hframe.
  2:{ left. unfold ConfigUi03.send_command. rewrite Hconn. run_io.
      now rewrite Himp, Hframe. }
  right. eauto.
Qed.

(** X17. [03_ws2812_config_ui.py] keeps the promise: whenever
    [start_notify] has been called and has succeeded, [stop_notify] is called
    later in the same [send_command], whether the write failed or not; only a
    warning can follow it, and the subscription is gone unless [stop_notify]
    itself raised. *)
Lemma send_command_03_unsubscribes (script : Script) (self : WS2812Controller)
    (e s : Z) (payload : bytes) :
  on_start_notify script = None ->
  StartNotify UUID_CHAR_COMMAND
    ∈ calls (ConfigUi03.send_command script self e s payload env0).2 ->
  exists pre,
    calls (ConfigUi03.send_command script self e s payload env0).2
    = pre ++ StopNotify UUID_CHAR_COMMAND :: stop_warning script
    /\ StartNotify UUID_CHAR_COMMAND ∈ pre
    /\ subscribed (ConfigUi03.send_command script self e s payload env0).2
       = after_stop script.
Proof.
  intros Hstart Hin.
  destruct (send_command_03_cases script self e s payload env0)
    as [Hnone | (Hconn & Himp & frame & Hframe)].
  { rewrite Hnone in Hin. inversion Hin. }
  rewrite (send_command_03_run _ _ _ _ _ _ _ Hconn Himp Hframe), Hstart.
  destruct (on_write script) as [ex|]; cbn [snd calls subscribed env0 app].
  - exists [StartNotify UUID_CHAR_COMMAND;
            WriteGattChar UUID_CHAR_COMMAND frame].
    split; [reflexivity|]. split; [|reflexivity]. apply elem_of_cons. now left.
  - exists ([StartNotify UUID_CHAR_COMMAND;
             WriteGattChar UUID_CHAR_COMMAND frame; Sleep 2]
            ++ parse_warnings (incoming script)).
    split; [now rewrite <- !app_assoc|]. split; [|reflexivity].
    apply elem_of_cons. now left.
Qed.

(** X18. When no client call raises, the two versions make the same calls
    and return the same value. *)
Lemma send_command_versions_agree (script : Script) (self : WS2812Controller)
    (e s : Z) (payload : bytes) :
  on_start_notify script = None -> on_write script = None ->
  on_stop_notify script = None ->
  (ConfigUi.send_command script self e s payload env0).1
  = (ConfigUi03.send_command script self e s payload env0).1
  /\ calls (ConfigUi.send_command script self e s payload env0).2
     = calls (ConfigUi03.send_command script self e s payload env0).2.
Proof.
  intros Hstart Hwrite Hstop.
  destruct (not_connected self) eqn:Hconn.
  { unfold ConfigUi.send_command, ConfigUi03.send_command.
    now rewrite Hconn. }
  destruct (import_ok script) eqn:Himp.
  2:{ unfold ConfigUi.send_command, ConfigUi03.send_command.
      rewrite Hconn. run_io. now rewrite Himp. }
  destruct (build_frame e s 1 payload) as [frame|ex] eqn:Hframe.
  2:{ unfold ConfigUi.send_command, ConfigUi03.send_command.
      rewrite Hconn. run_io. now rewrite Himp, Hframe. }
  rewrite (send_command_03_run _ _ _ _ _ _ _ Hconn Himp Hframe).
  rewrite (send_command_run _ _ _ _ _ _ _ Hconn Himp Hframe).
  unfold stop_warning. rewrite Hstart, Hwrite, Hstop.
  cbn [fst snd calls]. now rewrite !app_nil_r.
Qed.

(** C3. In [ws2812_config_ui.py] the four client calls follow each other
    without [try]/[finally]: when [write_gatt_char] raises on a connected
    client, the exception leaves [send_command] right after the write,
    [stop_notify] is never called and the subscription stays active. On the
    same input [03_ws2812_config_ui.py] calls [stop_notify]. *)
Theorem send_command_write_failure_leaks_subscription :
  let script := mkScript true None (Some (BleakError "write failed")) [] None in
  let self := mkController (Some "AA:BB:CC:DD:EE:FF") (Some (mkClient true)) in
  ConfigUi.send_command script self 0x10 0x01 [0x01] env0
  = (Raise (BleakError "write failed"),
     mkEnv [StartNotify UUID_CHAR_COMMAND;
            WriteGattChar UUID_CHAR_COMMAND
              [0xAA; 0x55; 0x01; 0x10; 0x01; 0x01; 0x01; 0x01; 0xEE]]
           true false None)
  /\ ConfigUi03.send_command script self 0x10 0x01 [0x01] env0
     = (Raise (Exception "Command send error: write failed"),
        mkEnv [StartNotify UUID_CHAR_COMMAND;
               WriteGattChar UUID_CHAR_COMMAND
                 [0xAA; 0x55; 0x01; 0x10; 0x01; 0x01; 0x01; 0x01; 0xEE];
               StopNotify UUID_CHAR_COMMAND]
              false true None).
Proof. split; reflexivity. Qed.

Lemma last_ack_all_malformed (notifications : list bytes) (previous : option Ack) :
  Forall (fun data => exists ex, parse_ack data = Raise ex) notifications ->
  last_ack notifications previous = previous.
Proof.
  unfold last_ack. induction 1 as [|data rest [ex Hex] _ IH]; cbn [fold_left].
  - reflexivity.
  - now rewrite Hex.
Qed.

Lemma parse_warnings_elem (notifications : list bytes) (data : bytes) (ex : exn) :
  data ∈ notifications -> parse_ack data = Raise ex ->
  StWarning ("Failed to parse ACK: " +:+ str ex) ∈ parse_warnings notifications.
Proof.
  intros Hin Hex. unfold parse_warnings.
  induction Hin as [data rest | data d rest _ IH]; cbn [flat_map];
    apply elem_of_app.
  - left. unfold parse_warning. rewrite Hex. apply elem_of_cons. now left.
  - right. now apply IH.
Qed.

(** A notification with a wrong checksum: the handler warns, and the caller
    gets [None], the very value it gets when nothing was received. *)
Lemma malformed_ack_not_returned :
  let self := mkController (Some "AA:BB:CC:DD:EE:FF") (Some (mkClient true)) in
  let bad := [0xAA; 0x55; 0x01; 0x10; 0x01; 0x01; 0x01; 0x00; 0x00] in
  parse_ack bad = Raise (ValueError "Checksum mismatch")
  /\ ConfigUi03.send_command (mkScript true None None [bad] None) self
       0x10 0x01 [0x01] env0
     = (Ok None,
        mkEnv [StartNotify UUID_CHAR_COMMAND;
               WriteGattChar UUID_CHAR_COMMAND
                 [0xAA; 0x55; 0x01; 0x10; 0x01; 0x01; 0x01; 0x01; 0xEE];
               Sleep 2;
               StWarning "Failed to parse ACK: Checksum mismatch";
               StopNotify UUID_CHAR_COMMAND]
              false true None)
  /\ (ConfigUi03.send_command (mkScript true None None [] None) self
        0x10 0x01 [0x01] env0).1 = Ok None
  /\ (ConfigUi.send_command (mkScript true None None [bad] None) self
        0x10 0x01 [0x01] env0).1 = Ok None.
Proof. repeat split; reflexivity. Qed.

(** C4 (as amended). When a notification received during a send fails to
    decode, the exception is caught inside the callback: the send goes on and
    returns normally, a "Failed to parse ACK" warning carrying the decode
    error is issued, [stop_notify] is still called, and the value returned to
    the caller is the last ack that did decode ([None] when none did). The
    decode failure itself is not returned to the caller. *)
Theorem malformed_ack_warned_not_returned (script : Script)
    (self : WS2812Controller) (e s : Z) (payload data : bytes) (ex : exn) :
  not_connected self = false -> import_ok script = true ->
  is_bytes payload -> len payload <= 32 ->
  on_start_notify script = None -> on_write script = None ->
  data ∈ incoming script -> parse_ack data = Raise ex ->
  let out03 := ConfigUi03.send_command script self e s payload env0 in
  let out := ConfigUi.send_command script self e s payload env0 in
  out03.1 = Ok (last_ack (incoming script) None)
  /\ StWarning ("Failed to parse ACK: " +:+ str ex) ∈ calls out03.2
  /\ StopNotify UUID_CHAR_COMMAND ∈ calls out03.2
  /\ (Forall (fun d => exists ex', parse_ack d = Raise ex') (incoming script) ->
      out03.1 = Ok None)
  /\ (on_stop_notify script = None ->
      out.1 = Ok (last_ack (incoming script) None)
      /\ StWarning ("Failed to parse ACK: " +:+ str ex) ∈ calls out.2).
Proof.
  intros Hconn Himp Hb Hl Hstart Hwrite Hin Hex out03 out.
  pose proof (build_frame_wire e s 1 payload Hb Hl) as Hframe.
  subst out03 out.
  rewrite (send_command_03_run _ _ _ _ _ _ _ Hconn Himp Hframe).
  rewrite (send_command_run _ _ _ _ _ _ _ Hconn Himp Hframe).
  rewrite Hstart, Hwrite. cbn [fst snd calls env0 app].
  pose proof (parse_warnings_elem _ _ _ Hin Hex) as Hw.
  split; [reflexivity|].
  split; [|split; [|split]].
  - do 3 (apply elem_of_cons; right). apply elem_of_app. now left.
  - do 3 (apply elem_of_cons; right). apply elem_of_app. right.
    apply elem_of_cons. now left.
  - intros Hall. now rewrite last_ack_all_malformed.
  - intros Hstop. rewrite Hstop. split; [reflexivity|].
    do 3 (apply elem_of_cons; right). apply elem_of_app. now left.
Qed.

Lemma malformed_ack_warned_not_returned_witness :
  let script := mkScript true None None
                  [[0xAA; 0x55; 0x01; 0x10; 0x01; 0x01; 0x01; 0x00; 0x00]] None in
  let self := mkController (Some "AA:BB:CC:DD:EE:FF") (Some (mkClient true)) in
  let out03 := ConfigUi03.send_command script self 0x10 0x01 [0x01] env0 in
  let out := ConfigUi.send_command script self 0x10 0x01 [0x01] env0 in
  out03.1 = Ok (last_ack (incoming script) None)
  /\ StWarning ("Failed to parse ACK: " +:+ str (ValueError "Checksum mismatch"))
       ∈ calls out03.2
  /\ StopNotify UUID_CHAR_COMMAND ∈ calls out03.2
  /\ (Forall (fun d => exists ex', parse_ack d = Raise ex') (incoming script) ->
      out03.1 = Ok None)
  /\ (on_stop_notify script = None ->
      out.1 = Ok (last_ack (incoming script) None)
      /\ StWarning ("Failed to parse ACK: " +:+ str (ValueError "Checksum mismatch"))
           ∈ calls out.2).
Proof.
  intros script self.
  apply (malformed_ack_warned_not_returned script self 0x10 0x01 [0x01]
           [0xAA; 0x55; 0x01; 0x10; 0x01; 0x01; 0x01; 0x00; 0x00]
           (ValueError "Checksum mismatch")); try reflexivity.
  - repeat constructor; unfold is_byte; lia.
  - unfold len. simpl. lia.
  - apply elem_of_cons. now left.
Defined.

(** * Further properties of the codec *)

Lemma crc_xor_singleton (c : Z) : crc_xor [c] = c.
Proof. unfold crc_xor. simpl. reflexivity. Qed.

Lemma wire_frame_crc (e s q : Z) (payload : bytes) :
  crc_xor (wire_frame e s q payload) = 0.
Proof.
  unfold wire_frame. rewrite crc_xor_app, crc_xor_singleton.
  apply Z.lxor_nilpotent.
Qed.

(** X1. The checksum byte makes the XOR of a whole frame vanish: every frame
    that [build_frame] returns has [crc_xor] 0. *)
Theorem build_frame_checksum_cancels (e s q : Z) (payload frame : bytes) :
  is_bytes payload ->
  build_frame e s q payload = Ok frame ->
  crc_xor frame = 0.
Proof.
  intros Hp Hok.
  destruct (Z_le_gt_dec (len payload) 32) as [Hle|Hgt].
  - rewrite build_frame_wire in Hok by assumption.
    injection Hok as <-. apply wire_frame_crc.
  - rewrite build_frame_too_long in Hok by assumption. discriminate.
Qed.

Lemma build_frame_checksum_cancels_witness :
  crc_xor [0xAA; 0x55; 0x01; 0x10; 0x01; 0x01; 0x01; 0x01; 0xEE] = 0.
Proof.
  apply (build_frame_checksum_cancels 0x10 0x01 1 [0x01]).
  - repeat constructor; unfold is_byte; lia.
  - reflexivity.
Defined.

(** X2. For a payload of at most 32 bytes [build_frame] returns a frame of
    [8 + len(payload)] bytes, all in [range(256)]: the seven header bytes
    (magic AA 55, version 01, the low bytes of event, subevent and sequence,
    the payload length), then the payload unchanged, then the XOR of
    everything before. *)
Theorem build_frame_layout (e s q : Z) (payload : bytes) :
  is_bytes payload -> len payload <= 32 ->
  exists frame,
    build_frame e s q payload = Ok frame /\
    length frame = (8 + length payload)%nat /\
    is_bytes frame /\
    take 7 frame = [0xAA; 0x55; 0x01; Z.land e 0xFF; Z.land s 0xFF;
                    Z.land q 0xFF; len payload] /\
    take (length payload) (drop 7 frame) = payload /\
    frame !! (7 + length payload)%nat
    = Some (crc_xor (take (7 + length payload) frame)).
Proof.
  intros Hp Hle. exists (wire_frame e s q payload).
  split; [now apply build_frame_wire|].
  split; [apply wire_frame_length|].
  split; [now apply wire_frame_is_bytes|].
  split; [reflexivity|].
  split.
  - unfold wire_frame, wire_head. rewrite <- app_assoc. cbn [app drop].
    apply take_app_length.
  - rewrite wire_frame_take. apply wire_frame_checksum.
Qed.

Lemma build_frame_layout_witness :
  exists frame,
    build_frame 0x10 0x0A 1 [0x0A; 0xB4] = Ok frame /\
    length frame = (8 + length [0x0A; 0xB4])%nat /\
    is_bytes frame /\
    take 7 frame = [0xAA; 0x55; 0x01; Z.land 0x10 0xFF; Z.land 0x0A 0xFF;
                    Z.land 1 0xFF; len [0x0A; 0xB4]] /\
    take (length [0x0A; 0xB4]) (drop 7 frame) = [0x0A; 0xB4] /\
    frame !! (7 + length [0x0A; 0xB4])%nat
    = Some (crc_xor (take (7 + length [0x0A; 0xB4]) frame)).
Proof.
  apply (build_frame_layout 0x10 0x0A 1 [0x0A; 0xB4]).
  - repeat constructor; unfold is_byte; lia.
  - unfold len. simpl. lia.
Defined.

Lemma land_mod_256 (x : Z) : Z.land (x mod 256) 0xFF = Z.land x 0xFF.
Proof.
  change 0xFF with (Z.ones 8). rewrite !Z.land_ones by lia.
  change (2 ^ 8) with 256. apply Z.mod_mod. lia.
Qed.

(** X3. [build_frame] accepts any integers for event, subevent and sequence
    and only looks at their low byte: arguments that agree modulo 256 give
    the same result, nothing is rejected for being out of range. *)
Theorem build_frame_low_byte_only (e s q : Z) (payload : bytes) :
  build_frame e s q payload
  = build_frame (e mod 256) (s mod 256) (q mod 256) payload.
Proof.
  unfold build_frame. now rewrite !land_mod_256.
Qed.

Example build_frame_wraps_event :
  build_frame 0x110 (-1) 257 [0x01] = build_frame 0x10 0xFF 1 [0x01].
Proof. reflexivity. Qed.

Lemma is_bytes_lookup (data : bytes) (i : nat) (b : Z) :
  is_bytes data -> data !! i = Some b -> is_byte b.
Proof.
  unfold is_bytes. rewrite Forall_lookup. intros H Hb. exact (H i b Hb).
Qed.

(** The big-endian join of two bytes determines both. *)
Lemma header_join (d0 d1 : Z) :
  is_byte d0 -> is_byte d1 ->
  Z.lor (Z.shiftl d0 8) d1 = d0 * 256 + d1.
Proof.
  unfold is_byte. intros H0 H1.
  rewrite Z.shiftl_mul_pow2 by lia. change (2 ^ 8) with 256.
  assert (Hl : Z.land (d0 * 256) d1 = 0).
  { apply Z.bits_inj'. intros n Hn. rewrite Z.land_spec, Z.bits_0.
    destruct (Z_lt_le_dec n 8) as [Hlt|Hge].
    - change 256 with (2 ^ 8). rewrite Z.mul_pow2_bits_low by lia.
      reflexivity.
    - rewrite (Z.bits_above_log2 d1 n), andb_false_r; try lia.
      destruct (Z.eq_dec d1 0) as [->|Hnz]; [simpl; lia|].
      apply Z.lt_le_trans with 8; [|lia].
      apply Z.log2_lt_pow2; lia. }
  rewrite <- (Z.lxor_lor _ _ Hl). symmetry.
  now apply Z.add_nocarry_lxor.
Qed.

Lemma header_check (d0 d1 : Z) :
  is_byte d0 -> is_byte d1 ->
  negb (Z.lor (Z.shiftl d0 8) d1 =? FRAME_HEADER) = false
  <-> d0 = 0xAA /\ d1 = 0x55.
Proof.
  intros H0 H1. rewrite header_join by assumption.
  rewrite negb_false_iff, Z.eqb_eq. unfold FRAME_HEADER, is_byte in *. lia.
Qed.

(** X4. On a [bytes] buffer [parse_ack] either returns an ack or raises a
    [ValueError] with one of its five messages; none of its index reads can
    raise [IndexError]. *)
Theorem parse_ack_only_value_errors (data : bytes) :
  is_bytes data ->
  (exists ack, parse_ack data = Ok ack)
  \/ parse_ack data = Raise (ValueError "ACK frame too short")
  \/ parse_ack data = Raise (ValueError "Invalid header")
  \/ parse_ack data = Raise (ValueError "Protocol version mismatch")
  \/ parse_ack data = Raise (ValueError "ACK data length mismatch")
  \/ parse_ack data = Raise (ValueError "Checksum mismatch").
Proof.
  intros Hbytes.
  destruct (Z_lt_le_dec (len data) 9) as [Hs|Hlen].
  { right. left. now apply parse_ack_short. }
  destruct (header_bytes data Hlen)
    as (d0 & d1 & v & e & s & q & dl & H0 & H1 & H2 & H3 & H4 & H5 & H6).
  rewrite (parse_ack_checks data _ _ _ _ _ _ _ Hlen H0 H1 H2 H3 H4 H5 H6).
  destruct (negb (Z.lor (Z.shiftl d0 8) d1 =? FRAME_HEADER)); [tauto|].
  destruct (negb (v =? PROTOCOL_VERSION)); [tauto|].
  destruct (Z.geb_spec (7 + dl) (len data)) as [?|Hidx]; [tauto|].
  pose proof (is_bytes_lookup data 6 dl Hbytes H6) as Hdl.
  destruct (lookup_lt_is_Some_2 data (Z.to_nat (7 + dl))) as [c Hc].
  { unfold len, is_byte in *. lia. }
  rewrite (getitem_lookup data (7 + dl) c), bind_Ok
    by (assumption || unfold is_byte in *; lia).
  destruct (negb (c =? crc_xor (slice data 0 (-1)))); [tauto|].
  left. eauto.
Qed.

Lemma parse_ack_only_value_errors_witness :
  (exists ack, parse_ack [0x00; 0xFF; 0x00; 0x00; 0x00; 0x00; 0xFF; 0x00; 0x00; 0x00]
               = Ok ack)
  \/ parse_ack [0x00; 0xFF; 0x00; 0x00; 0x00; 0x00; 0xFF; 0x00; 0x00; 0x00]
     = Raise (ValueError "ACK frame too short")
  \/ parse_ack [0x00; 0xFF; 0x00; 0x00; 0x00; 0x00; 0xFF; 0x00; 0x00; 0x00]
     = Raise (ValueError "Invalid header")
  \/ parse_ack [0x00; 0xFF; 0x00; 0x00; 0x00; 0x00; 0xFF; 0x00; 0x00; 0x00]
     = Raise (ValueError "Protocol version mismatch")
  \/ parse_ack [0x00; 0xFF; 0x00; 0x00; 0x00; 0x00; 0xFF; 0x00; 0x00; 0x00]
     = Raise (ValueError "ACK data length mismatch")
  \/ parse_ack [0x00; 0xFF; 0x00; 0x00; 0x00; 0x00; 0xFF; 0x00; 0x00; 0x00]
     = Raise (ValueError "Checksum mismatch").
Proof.
  apply (parse_ack_only_value_errors
           [0x00; 0xFF; 0x00; 0x00; 0x00; 0x00; 0xFF; 0x00; 0x00; 0x00]).
  repeat constructor; unfold is_byte; lia.
Defined.

(** X5. On a [bytes] buffer of nine bytes or more, [parse_ack] raises "Invalid
    header" exactly when the first two bytes are not AA 55: the 16-bit
    comparison of the code is a comparison of the two bytes. *)
Theorem parse_ack_invalid_header_iff (data : bytes) :
  is_bytes data -> 9 <= len data ->
  (parse_ack data = Raise (ValueError "Invalid header")
   <-> ~ (data !! 0%nat = Some 0xAA /\ data !! 1%nat = Some 0x55)).
Proof.
  intros Hbytes Hlen.
  destruct (header_bytes data Hlen)
    as (d0 & d1 & v & e & s & q & dl & H0 & H1 & H2 & H3 & H4 & H5 & H6).
  rewrite (parse_ack_checks data _ _ _ _ _ _ _ Hlen H0 H1 H2 H3 H4 H5 H6).
  pose proof (header_check d0 d1 (is_bytes_lookup _ _ _ Hbytes H0)
                (is_bytes_lookup _ _ _ Hbytes H1)) as Hhdr.
  rewrite H0, H1.
  destruct (negb (Z.lor (Z.shiftl d0 8) d1 =? FRAME_HEADER)).
  - split; [|reflexivity]. intros _ [[= ->] [= ->]].
    destruct Hhdr as [_ Hhdr]. discriminate Hhdr. now split.
  - destruct Hhdr as [Hhdr _]. destruct (Hhdr eq_refl) as [-> ->].
    split; [|intros Hn; exfalso; apply Hn; now split].
    intros Habs. exfalso.
    destruct (negb (v =? PROTOCOL_VERSION)); [discriminate|].
    destruct (Z.geb_spec (7 + dl) (len data)) as [?|Hidx]; [discriminate|].
    pose proof (is_bytes_lookup data 6 dl Hbytes H6) as Hdl.
    destruct (lookup_lt_is_Some_2 data (Z.to_nat (7 + dl))) as [c Hc].
    { unfold len, is_byte in *. lia. }
    rewrite (getitem_lookup data (7 + dl) c), bind_Ok in Habs
      by (assumption || unfold is_byte in *; lia).
    destruct (negb (c =? crc_xor (slice data 0 (-1)))); discriminate.
Qed.

Lemma parse_ack_invalid_header_iff_witness :
  parse_ack [0xAA; 0x54; 0x01; 0x10; 0x01; 0x01; 0x01; 0x00; 0xEE]
  = Raise (ValueError "Invalid header")
  <-> ~ ([0xAA; 0x54; 0x01; 0x10; 0x01; 0x01; 0x01; 0x00; 0xEE] !! 0%nat
         = Some 0xAA
         /\ [0xAA; 0x54; 0x01; 0x10; 0x01; 0x01; 0x01; 0x00; 0xEE] !! 1%nat
            = Some 0x55).
Proof.
  apply (parse_ack_invalid_header_iff
           [0xAA; 0x54; 0x01; 0x10; 0x01; 0x01; 0x01; 0x00; 0xEE]).
  - repeat constructor; unfold is_byte; lia.
  - unfold len. simpl. lia.
Defined.

Lemma is_bytes_slice (data : bytes) (lo hi : Z) :
  is_bytes data -> is_bytes (slice data lo hi).
Proof.
  unfold is_bytes, slice. intros H. now apply Forall_take, Forall_drop.
Qed.

Lemma ack_of_bytes (e s q : Z) (payload : bytes) :
  is_byte e -> is_byte s -> is_byte q -> is_bytes payload ->
  is_byte (event (ack_of e s q payload))
  /\ is_byte (sub_event (ack_of e s q payload))
  /\ is_byte (sequence (ack_of e s q payload))
  /\ (forall v, status (ack_of e s q payload) = Some v -> is_byte v)
  /\ (forall v, ref_event (ack_of e s q payload) = Some v -> is_byte v)
  /\ (forall v, ref_sub (ack_of e s q payload) = Some v -> is_byte v).
Proof.
  intros He Hs Hq Hp. cbn [ack_of event sub_event sequence status ref_event ref_sub].
  split; [exact He|]. split; [exact Hs|]. split; [exact Hq|].
  split; [|split]; intros v Hv.
  - destruct payload; [discriminate|]. exact (is_bytes_lookup _ _ _ Hp Hv).
  - destruct (len payload >? 1); [|discriminate].
    exact (is_bytes_lookup _ _ _ Hp Hv).
  - destruct (len payload >? 2); [|discriminate].
    exact (is_bytes_lookup _ _ _ Hp Hv).
Qed.

(** X6. Every field of an ack that [parse_ack] returns for a [bytes] buffer
    is a byte: event, subevent and sequence lie in 0..255, and so do status,
    ref_event and ref_sub when they are present. *)
Theorem parse_ack_fields_are_bytes (data : bytes) (ack : Ack) :
  is_bytes data -> parse_ack data = Ok ack ->
  is_byte (event ack) /\ is_byte (sub_event ack) /\ is_byte (sequence ack)
  /\ (forall v, status ack = Some v -> is_byte v)
  /\ (forall v, ref_event ack = Some v -> is_byte v)
  /\ (forall v, ref_sub ack = Some v -> is_byte v).
Proof.
  intros Hbytes Hok.
  assert (Hlen : 9 <= len data).
  { destruct (Z_lt_le_dec (len data) 9) as [Hs|Hs]; [|exact Hs].
    rewrite parse_ack_short in Hok by exact Hs. discriminate. }
  destruct (header_bytes data Hlen)
    as (d0 & d1 & v & e & s & q & dl & H0 & H1 & H2 & H3 & H4 & H5 & H6).
  rewrite (parse_ack_checks data _ _ _ _ _ _ _ Hlen H0 H1 H2 H3 H4 H5 H6) in Hok.
  destruct (negb (Z.lor (Z.shiftl d0 8) d1 =? FRAME_HEADER)); [discriminate|].
  destruct (negb (v =? PROTOCOL_VERSION)); [discriminate|].
  destruct (7 + dl >=? len data); [discriminate|].
  destruct (getitem data (7 + dl)) as [c|]; [|discriminate].
  rewrite bind_Ok in Hok.
  destruct (negb (c =? crc_xor (slice data 0 (-1)))); [discriminate|].
  injection Hok as <-.
  apply ack_of_bytes; eauto using is_bytes_lookup, is_bytes_slice.
Qed.

Lemma parse_ack_fields_are_bytes_witness :
  is_byte (event (mkAck 0x10 0x01 1 (Some 0) (Some 0x10) None))
  /\ is_byte (sub_event (mkAck 0x10 0x01 1 (Some 0) (Some 0x10) None))
  /\ is_byte (sequence (mkAck 0x10 0x01 1 (Some 0) (Some 0x10) None))
  /\ (forall v, status (mkAck 0x10 0x01 1 (Some 0) (Some 0x10) None) = Some v ->
                is_byte v)
  /\ (forall v, ref_event (mkAck 0x10 0x01 1 (Some 0) (Some 0x10) None) = Some v ->
                is_byte v)
  /\ (forall v, ref_sub (mkAck 0x10 0x01 1 (Some 0) (Some 0x10) None) = Some v ->
                is_byte v).
Proof.
  apply (parse_ack_fields_are_bytes
           [0xAA; 0x55; 0x01; 0x10; 0x01; 0x01; 0x02; 0x00; 0x10; 0xFC]).
  - repeat constructor; unfold is_byte; lia.
  - reflexivity.
Defined.

(** A buffer that holds exactly one frame passes the checksum test exactly
    when the XOR of all its bytes, checksum included, is zero. *)
Lemma parse_ack_exact_zero (data : bytes) (e s q dl : Z) :
  1 <= dl -> len data = 8 + dl ->
  data !! 0%nat = Some 0xAA -> data !! 1%nat = Some 0x55 ->
  data !! 2%nat = Some 0x01 -> data !! 3%nat = Some e ->
  data !! 4%nat = Some s -> data !! 5%nat = Some q ->
  data !! 6%nat = Some dl ->
  parse_ack data =
    if crc_xor data =? 0
    then Ok (ack_of e s q (slice data 7 (7 + dl)))
    else Raise (ValueError "Checksum mismatch").
Proof.
  intros Hdl Hlen H0 H1 H2 H3 H4 H5 H6.
  destruct (lookup_lt_is_Some_2 data (Z.to_nat (7 + dl))) as [c Hc].
  { unfold len in Hlen. lia. }
  rewrite (parse_ack_exact data e s q dl c) by assumption.
  assert (Hsplit : data = take (Z.to_nat (7 + dl)) data ++ [c]).
  { rewrite <- (take_drop (Z.to_nat (7 + dl)) data) at 1. f_equal.
    apply list_eq. intros [|i].
    - rewrite lookup_drop, Nat.add_0_r. exact Hc.
    - rewrite lookup_drop. simpl. apply lookup_ge_None_2.
      unfold len in Hlen. lia. }
  assert (Hcrc : crc_xor data
                 = Z.lxor (crc_xor (take (Z.to_nat (7 + dl)) data)) c).
  { rewrite Hsplit at 1. now rewrite crc_xor_app, crc_xor_singleton. }
  rewrite Hcrc.
  destruct (Z.eqb_spec c (crc_xor (take (Z.to_nat (7 + dl)) data))) as [->|Hne].
  - now rewrite Z.lxor_nilpotent.
  - destruct (Z.eqb_spec (Z.lxor (crc_xor (take (Z.to_nat (7 + dl)) data)) c) 0)
      as [Hz|_]; [|reflexivity].
    apply Z.lxor_eq in Hz. congruence.
Qed.

(** X7. The checksum is blind to two flips of the same bit: take a frame that
    [build_frame] made from 1 to 32 payload bytes and flip bit [k] in two
    different bytes among event, subevent, sequence, payload and checksum;
    the result differs from the frame sent and [parse_ack] accepts it. *)
Theorem double_flip_undetected (e s q : Z) (payload frame : bytes)
    (i j : nat) (k : Z) :
  is_bytes payload -> 1 <= len payload <= 32 ->
  build_frame e s q payload = Ok frame ->
  0 <= k < 8 ->
  (3 <= i)%nat -> i <> 6%nat -> (i < length frame)%nat ->
  (3 <= j)%nat -> j <> 6%nat -> (j < length frame)%nat ->
  i <> j ->
  flip_bit (flip_bit frame i k) j k <> frame
  /\ exists ack, parse_ack (flip_bit (flip_bit frame i k) j k) = Ok ack.
Proof.
  intros Hp [Hlo Hhi] Hbuild Hk Hi3 Hi6 Hi Hj3 Hj6 Hj Hij.
  rewrite build_frame_wire in Hbuild by assumption.
  injection Hbuild as <-. rewrite wire_frame_length in Hi, Hj.
  set (frame := wire_frame e s q payload) in *.
  set (frame2 := flip_bit (flip_bit frame i k) j k).
  split.
  - intros Heq.
    destruct (lookup_lt_is_Some_2 frame i) as [b Hb].
    { unfold frame. rewrite wire_frame_length. lia. }
    assert (Hb2 : frame2 !! i = Some (Z.lxor b (Z.shiftl 1 k))).
    { unfold frame2. rewrite flip_bit_other by lia.
      now apply flip_bit_same. }
    rewrite Heq, Hb in Hb2. injection Hb2 as Hb2.
    symmetry in Hb2. revert Hb2. apply flip_changes. lia.
  - assert (Hl : len frame2 = 8 + len payload).
    { unfold len, frame2, frame.
      rewrite !flip_bit_length, wire_frame_length. lia. }
    destruct (header_bytes frame2 ltac:(lia))
      as (d0 & d1 & v & e' & s' & q' & dl & H0 & H1 & H2 & H3 & H4 & H5 & H6).
    assert (G0 : frame2 !! 0%nat = Some 0xAA)
      by (unfold frame2; now rewrite !flip_bit_other by lia).
    assert (G1 : frame2 !! 1%nat = Some 0x55)
      by (unfold frame2; now rewrite !flip_bit_other by lia).
    assert (G2 : frame2 !! 2%nat = Some 0x01)
      by (unfold frame2; now rewrite !flip_bit_other by lia).
    assert (G6 : frame2 !! 6%nat = Some (len payload))
      by (unfold frame2; now rewrite !flip_bit_other by lia).
    rewrite (parse_ack_exact_zero frame2 e' s' q' (len payload)
               Hlo Hl G0 G1 G2 H3 H4 H5 G6).
    assert (Hz : crc_xor frame2 = 0).
    { unfold frame2, flip_bit.
      rewrite crc_xor_alter
        by (rewrite length_alter; unfold frame;
            rewrite wire_frame_length; lia).
      rewrite crc_xor_alter by (unfold frame; rewrite wire_frame_length; lia).
      unfold frame. rewrite wire_frame_crc, Z.lxor_0_l.
      apply Z.lxor_nilpotent. }
    rewrite Hz. cbn. eauto.
Qed.

Lemma double_flip_undetected_witness :
  flip_bit (flip_bit [0xAA; 0x55; 0x01; 0x10; 0x01; 0x01; 0x01; 0x01; 0xEE] 4 0) 7 0
  <> [0xAA; 0x55; 0x01; 0x10; 0x01; 0x01; 0x01; 0x01; 0xEE]
  /\ exists ack,
       parse_ack
         (flip_bit (flip_bit [0xAA; 0x55; 0x01; 0x10; 0x01; 0x01; 0x01; 0x01; 0xEE]
                             4 0) 7 0)
       = Ok ack.
Proof.
  apply (double_flip_undetected 0x10 0x01 1 [0x01]).
  - repeat constructor; unfold is_byte; lia.
  - unfold len. simpl. lia.
  - reflexivity.
  - lia.
  - lia.
  - lia.
  - simpl. lia.
  - lia.
  - lia.
  - simpl. lia.
  - lia.
Defined.

(** X8. [crc_xor] does not depend on the order of the bytes: any
    rearrangement of a buffer has the same checksum. *)
Theorem crc_xor_permutation (l1 l2 : bytes) :
  l1 ≡ₚ l2 -> crc_xor l1 = crc_xor l2.
Proof.
  induction 1 as [|x l l' _ IH|x y l|l l' l'' _ IH1 _ IH2].
  - reflexivity.
  - now rewrite !crc_xor_cons, IH.
  - rewrite !crc_xor_cons, <- !Z.lxor_assoc. f_equal. apply Z.lxor_comm.
  - congruence.
Qed.

Lemma crc_xor_permutation_witness :
  crc_xor [0x0A; 0xB4; 0x10] = crc_xor [0x10; 0x0A; 0xB4].
Proof.
  apply crc_xor_permutation.
  apply (perm_trans (l' := [0x0A; 0x10; 0xB4])).
  - apply perm_skip. apply perm_swap.
  - apply perm_swap.
Defined.

Lemma parse_ack_wire_frame_mod (e s q : Z) (payload : bytes) :
  1 <= len payload ->
  parse_ack (wire_frame e s q payload)
  = Ok {| event := e mod 256;
          sub_event := s mod 256;
          sequence := q mod 256;
          status := payload !! 0%nat;
          ref_event := payload !! 1%nat;
          ref_sub := payload !! 2%nat |}.
Proof.
  intros Hlo.
  rewrite parse_ack_wire_frame by assumption. unfold ack_of.
  change 0xFF with (Z.ones 8). rewrite !Z.land_ones by lia.
  change (2 ^ 8) with 256. f_equal. f_equal.
  - destruct payload; [unfold len in Hlo; simpl in Hlo; lia | reflexivity].
  - destruct (Z.gtb_spec (len payload) 1) as [_|Hle]; [reflexivity|].
    symmetry. apply lookup_ge_None_2. unfold len in Hle. lia.
  - destruct (Z.gtb_spec (len payload) 2) as [_|Hle]; [reflexivity|].
    symmetry. apply lookup_ge_None_2. unfold len in Hle. lia.
Qed.

(** X9. Decoding what was encoded, for arbitrary integer arguments: with a
    payload of 1 to 32 bytes, [parse_ack] of [build_frame]'s output returns
    event, subevent and sequence reduced modulo 256, the first payload byte
    as status, and the second and third payload bytes as ref_event and
    ref_sub when the payload has them. *)
Theorem roundtrip_any_int (e s q : Z) (payload : bytes) :
  is_bytes payload -> 1 <= len payload <= 32 ->
  exists frame,
    build_frame e s q payload = Ok frame /\
    parse_ack frame
    = Ok {| event := e mod 256;
            sub_event := s mod 256;
            sequence := q mod 256;
            status := payload !! 0%nat;
            ref_event := payload !! 1%nat;
            ref_sub := payload !! 2%nat |}.
Proof.
  intros Hp [Hlo Hhi]. exists (wire_frame e s q payload).
  split; [now apply build_frame_wire|].
  now apply parse_ack_wire_frame_mod.
Qed.

Lemma roundtrip_any_int_witness :
  exists frame,
    build_frame 0x110 (-1) 256 [0x00; 0x10] = Ok frame /\
    parse_ack frame
    = Ok {| event := 0x110 mod 256;
            sub_event := (-1) mod 256;
            sequence := 256 mod 256;
            status := [0x00; 0x10] !! 0%nat;
            ref_event := [0x00; 0x10] !! 1%nat;
            ref_sub := [0x00; 0x10] !! 2%nat |}.
Proof.
  apply (roundtrip_any_int 0x110 (-1) 256 [0x00; 0x10]).
  - repeat constructor; unfold is_byte; lia.
  - unfold len. simpl. lia.
Defined.

(** A frame made by [build_frame] is accepted by [parse_ack] exactly
    when its payload is not empty; the frame of an empty payload is always
    answered by "ACK frame too short". *)
Theorem roundtrip_iff_nonempty (e s q : Z) (payload frame : bytes) :
  is_bytes payload ->
  build_frame e s q payload = Ok frame ->
  ((exists ack, parse_ack frame = Ok ack) <-> payload <> [])
  /\ (payload = [] ->
      parse_ack frame = Raise (ValueError "ACK frame too short")).
Proof.
  intros Hp Hbuild.
  assert (Hle : len payload <= 32).
  { destruct (Z_le_gt_dec (len payload) 32) as [Hle|Hgt]; [exact Hle|].
    rewrite build_frame_too_long in Hbuild by assumption. discriminate. }
  rewrite build_frame_wire in Hbuild by assumption. injection Hbuild as <-.
  assert (Hshort : payload = [] ->
            parse_ack (wire_frame e s q payload)
            = Raise (ValueError "ACK frame too short")).
  { intros ->. apply parse_ack_short. unfold len. simpl. lia. }
  split; [|exact Hshort]. split.
  - intros [ack Hack] ->. rewrite Hshort in Hack by reflexivity. discriminate.
  - intros Hne. rewrite parse_ack_wire_frame; [eauto|].
    destruct payload; [congruence|]. unfold len. simpl. lia.
Qed.

Lemma roundtrip_iff_nonempty_witness :
  ((exists ack, parse_ack [0xAA; 0x55; 0x01; 0x10; 0xFF; 0x01; 0x00; 0x10] = Ok ack)
   <-> @nil Z <> [])
  /\ (@nil Z = [] ->
      parse_ack [0xAA; 0x55; 0x01; 0x10; 0xFF; 0x01; 0x00; 0x10]
      = Raise (ValueError "ACK frame too short")).
Proof.
  apply (roundtrip_iff_nonempty 0x10 0xFF 1 []).
  - constructor.
  - reflexivity.
Defined.

(** X10. When a buffer holds exactly one frame (AA 55 01, a declared payload
    length of at least 1, and [8 + length] bytes in all), [parse_ack] accepts
    it if its last byte is the XOR of all the bytes before it, and raises
    "Checksum mismatch" otherwise. *)
Theorem parse_ack_exact_frame_iff (data : bytes) (dl c : Z) :
  1 <= dl -> len data = 8 + dl ->
  data !! 0%nat = Some 0xAA -> data !! 1%nat = Some 0x55 ->
  data !! 2%nat = Some 0x01 -> data !! 6%nat = Some dl ->
  last data = Some c ->
  ((exists ack, parse_ack data = Ok ack)
   <-> c = crc_xor (take (length data - 1) data))
  /\ (parse_ack data = Raise (ValueError "Checksum mismatch")
      <-> c <> crc_xor (take (length data - 1) data)).
Proof.
  intros Hdl Hlen H0 H1 H2 H6 Hlast.
  destruct (header_bytes data ltac:(lia))
    as (d0 & d1 & v & e & s & q & dl' & _ & _ & _ & H3 & H4 & H5 & _).
  assert (Hidx : Z.to_nat (7 + dl) = (length data - 1)%nat)
    by (unfold len in Hlen; lia).
  assert (Hc : data !! Z.to_nat (7 + dl) = Some c).
  { rewrite Hidx, <- Hlast, last_lookup. f_equal. lia. }
  rewrite (parse_ack_exact data e s q dl c) by assumption.
  rewrite Hidx.
  destruct (Z.eqb_spec c (crc_xor (take (length data - 1) data))) as [Heq|Hne].
  - split; split.
    + intros _. exact Heq.
    + intros _. eauto.
    + discriminate.
    + intros H. contradiction.
  - split; split.
    + intros [ack H]. discriminate.
    + intros H. contradiction.
    + intros _. exact Hne.
    + reflexivity.
Qed.

Lemma parse_ack_exact_frame_iff_witness :
  ((exists ack,
       parse_ack [0xAA; 0x55; 0x01; 0x10; 0x01; 0x01; 0x01; 0x00; 0xEF] = Ok ack)
   <-> 0xEF = crc_xor (take (length [0xAA; 0x55; 0x01; 0x10; 0x01; 0x01; 0x01;
                                     0x00; 0xEF] - 1)
                            [0xAA; 0x55; 0x01; 0x10; 0x01; 0x01; 0x01; 0x00; 0xEF]))
  /\ (parse_ack [0xAA; 0x55; 0x01; 0x10; 0x01; 0x01; 0x01; 0x00; 0xEF]
      = Raise (ValueError "Checksum mismatch")
      <-> 0xEF <> crc_xor (take (length [0xAA; 0x55; 0x01; 0x10; 0x01; 0x01;
                                         0x01; 0x00; 0xEF] - 1)
                                [0xAA; 0x55; 0x01; 0x10; 0x01; 0x01; 0x01;
                                 0x00; 0xEF])).
Proof.
  apply (parse_ack_exact_frame_iff
           [0xAA; 0x55; 0x01; 0x10; 0x01; 0x01; 0x01; 0x00; 0xEF] 1 0xEF);
    reflexivity || lia.
Defined.

(** * Further properties of the discovery *)

Lemma first_match_empty_name (devices : list BLEDevice) :
  first_match "" devices = None.
Proof.
  induction devices as [|d rest IH]; [reflexivity|]. simpl.
  destruct (name d) as [n|]; [|exact IH]. simpl.
  destruct (String.eqb_spec n "") as [->|Hne]; simpl; exact IH.
Qed.

(** X11. Asking for the empty name never finds anything: whatever was
    scanned, [discover_device_by_name ""] returns [None], also when an
    advertisement has the empty name. *)
Theorem discover_empty_name_never_found (devices : list BLEDevice) :
  discover_device_by_name "" (Ok devices) = Ok None.
Proof.
  unfold discover_device_by_name. rewrite bind_Ok.
  now rewrite first_match_empty_name.
Qed.

Lemma first_match_app (n : string) (l1 l2 : list BLEDevice) :
  first_match n (l1 ++ l2)
  = match first_match n l1 with
    | Some a => Some a
    | None => first_match n l2
    end.
Proof.
  induction l1 as [|d l1 IH]; [reflexivity|]. simpl.
  now destruct (truthy_name (name d) && name_eq (name d) n).
Qed.

(** Scan order decides: over two batches of advertisements, a match in
    the first batch is returned whatever the second contains, and the second
    batch is searched only when the first has no match. *)
Theorem discover_earlier_batch_wins (device_name : string)
    (l1 l2 : list BLEDevice) :
  discover_device_by_name device_name (Ok (l1 ++ l2))
  = match discover_device_by_name device_name (Ok l1) with
    | Ok (Some a) => Ok (Some a)
    | _ => discover_device_by_name device_name (Ok l2)
    end.
Proof.
  unfold discover_device_by_name. rewrite !bind_Ok, first_match_app.
  now destruct (first_match device_name l1).
Qed.

(** * Further properties of [send_command] *)

(** X12. On a connected client, [send_command] (both versions) stops before
    any client call when the helpers cannot be imported ([RuntimeError]) or
    when the payload has more than 32 bytes (the [ValueError] of
    [build_frame]): the environment is left as it was. *)
Theorem send_command_early_exit_no_io (script : Script)
    (self : WS2812Controller) (e s : Z) (payload : bytes) (st : env) :
  not_connected self = false ->
  (import_ok script = false ->
   ConfigUi03.send_command script self e s payload st
   = (Raise (RuntimeError
        "BLE helper functions not available (is ws2812_ble_test.py present?)"),
      st)
   /\ ConfigUi.send_command script self e s payload st
      = (Raise (RuntimeError
           "BLE helper functions not available (is ws2812_ble_test.py present?)"),
         st))
  /\ (import_ok script = true -> len payload > 32 ->
      ConfigUi03.send_command script self e s payload st
      = (Raise (ValueError "payload too long"), st)
      /\ ConfigUi.send_command script self e s payload st
         = (Raise (ValueError "payload too long"), st)).
Proof.
  intros Hconn. split.
  - intros Himp. unfold ConfigUi03.send_command, ConfigUi.send_command.
    rewrite Hconn. run_io. rewrite Himp. split; reflexivity.
  - intros Himp Hlen. unfold ConfigUi03.send_command, ConfigUi.send_command.
    rewrite Hconn. run_io.
    rewrite Himp, build_frame_too_long by assumption. split; reflexivity.
Qed.

Lemma send_command_early_exit_no_io_witness :
  let self := mkController (Some "AA:BB:CC:DD:EE:FF") (Some (mkClient true)) in
  let script := mkScript true None None [] None in
  (import_ok script = false ->
   ConfigUi03.send_command script self 0x10 0x01 (replicate 33 0x00) env0
   = (Raise (RuntimeError
        "BLE helper functions not available (is ws2812_ble_test.py present?)"),
      env0)
   /\ ConfigUi.send_command script self 0x10 0x01 (replicate 33 0x00) env0
      = (Raise (RuntimeError
           "BLE helper functions not available (is ws2812_ble_test.py present?)"),
         env0))
  /\ (import_ok script = true -> len (replicate 33 0x00) > 32 ->
      ConfigUi03.send_command script self 0x10 0x01 (replicate 33 0x00) env0
      = (Raise (ValueError "payload too long"), env0)
      /\ ConfigUi.send_command script self 0x10 0x01 (replicate 33 0x00) env0
         = (Raise (ValueError "payload too long"), env0)).
Proof.
  intros self script.
  apply (send_command_early_exit_no_io script self 0x10 0x01
           (replicate 33 0x00) env0).
  reflexivity.
Defined.

(** X13. How a failing client call reaches the caller: when [start_notify]
    or [write_gatt_char] raises [ex], [03_ws2812_config_ui.py] raises a fresh
    [Exception] whose message is "Command send error: " followed by
    [str(ex)], while [ws2812_config_ui.py] lets [ex] itself through. *)
Theorem send_command_transport_error (script : Script)
    (self : WS2812Controller) (e s : Z) (payload : bytes) (ex : exn) :
  not_connected self = false -> import_ok script = true ->
  is_bytes payload -> len payload <= 32 ->
  on_start_notify script = Some ex
  \/ (on_start_notify script = None /\ on_write script = Some ex) ->
  (ConfigUi03.send_command script self e s payload env0).1
  = Raise (Exception ("Command send error: " +:+ str ex))
  /\ (ConfigUi.send_command script self e s payload env0).1 = Raise ex.
Proof.
  intros Hconn Himp Hb Hl Hfail.
  pose proof (build_frame_wire e s 1 payload Hb Hl) as Hframe.
  rewrite (send_command_03_run _ _ _ _ _ _ _ Hconn Himp Hframe).
  rewrite (send_command_run _ _ _ _ _ _ _ Hconn Himp Hframe).
  destruct Hfail as [-> | [-> ->]]; split; reflexivity.
Qed.

Lemma send_command_transport_error_witness :
  let self := mkController (Some "AA:BB:CC:DD:EE:FF") (Some (mkClient true)) in
  let script := mkScript true None (Some (BleakError "Not connected")) [] None in
  (ConfigUi03.send_command script self 0x10 0x01 [0x01] env0).1
  = Raise (Exception ("Command send error: " +:+ str (BleakError "Not connected")))
  /\ (ConfigUi.send_command script self 0x10 0x01 [0x01] env0).1
     = Raise (BleakError "Not connected").
Proof.
  intros self script.
  apply (send_command_transport_error script self 0x10 0x01 [0x01]
           (BleakError "Not connected")); try reflexivity.
  - repeat constructor; unfold is_byte; lia.
  - unfold len. simpl. lia.
  - right. split; reflexivity.
Defined.

(** When [start_notify] itself raises, nothing else is attempted: the
    only client call of the send is that [start_notify]; there is no write,
    no sleep and no [stop_notify] (both versions), and the subscription state
    is what it was. *)
Theorem send_command_start_failure (script : Script)
    (self : WS2812Controller) (e s : Z) (payload : bytes) (ex : exn) (st : env) :
  not_connected self = false -> import_ok script = true ->
  is_bytes payload -> len payload <= 32 ->
  on_start_notify script = Some ex ->
  calls (ConfigUi03.send_command script self e s payload st).2
  = calls st ++ [StartNotify UUID_CHAR_COMMAND]
  /\ subscribed (ConfigUi03.send_command script self e s payload st).2
     = subscribed st
  /\ calls (ConfigUi.send_command script self e s payload st).2
     = calls st ++ [StartNotify UUID_CHAR_COMMAND]
  /\ subscribed (ConfigUi.send_command script self e s payload st).2
     = subscribed st.
Proof.
  intros Hconn Himp Hb Hl Hstart.
  pose proof (build_frame_wire e s 1 payload Hb Hl) as Hframe.
  rewrite (send_command_03_run _ _ _ _ _ _ _ Hconn Himp Hframe).
  rewrite (send_command_run _ _ _ _ _ _ _ Hconn Himp Hframe).
  rewrite Hstart. repeat split.
Qed.

Lemma send_command_start_failure_witness :
  let self := mkController (Some "AA:BB:CC:DD:EE:FF") (Some (mkClient true)) in
  let script := mkScript true (Some (BleakError "Characteristic not found"))
                  None [] None in
  calls (ConfigUi03.send_command script self 0x10 0x01 [0x01] env0).2
  = calls env0 ++ [StartNotify UUID_CHAR_COMMAND]
  /\ subscribed (ConfigUi03.send_command script self 0x10 0x01 [0x01] env0).2
     = subscribed env0
  /\ calls (ConfigUi.send_command script self 0x10 0x01 [0x01] env0).2
     = calls env0 ++ [StartNotify UUID_CHAR_COMMAND]
  /\ subscribed (ConfigUi.send_command script self 0x10 0x01 [0x01] env0).2
     = subscribed env0.
Proof.
  intros self script.
  apply (send_command_start_failure script self 0x10 0x01 [0x01]
           (BleakError "Characteristic not found") env0); try reflexivity.
  - repeat constructor; unfold is_byte; lia.
  - unfold len. simpl. lia.
Defined.

(** X14. When only [stop_notify] raises, [03_ws2812_config_ui.py] still
    returns the ack it collected and ends with an "Error stopping
    notification" warning, the subscription staying active;
    [ws2812_config_ui.py] raises the exception instead and the ack is
    lost. *)
Theorem send_command_stop_failure (script : Script)
    (self : WS2812Controller) (e s : Z) (payload : bytes) (ex : exn) :
  not_connected self = false -> import_ok script = true ->
  is_bytes payload -> len payload <= 32 ->
  on_start_notify script = None -> on_write script = None ->
  on_stop_notify script = Some ex ->
  (ConfigUi03.send_command script self e s payload env0).1
  = Ok (last_ack (incoming script) None)
  /\ last (calls (ConfigUi03.send_command script self e s payload env0).2)
     = Some (StWarning ("Error stopping notification: " +:+ str ex))
  /\ subscribed (ConfigUi03.send_command script self e s payload env0).2 = true
  /\ (ConfigUi.send_command script self e s payload env0).1 = Raise ex.
Proof.
  intros Hconn Himp Hb Hl Hstart Hwrite Hstop.
  pose proof (build_frame_wire e s 1 payload Hb Hl) as Hframe.
  rewrite (send_command_03_run _ _ _ _ _ _ _ Hconn Himp Hframe).
  rewrite (send_command_run _ _ _ _ _ _ _ Hconn Himp Hframe).
  unfold stop_warning, after_stop. rewrite Hstart, Hwrite, Hstop.
  cbn [fst snd calls subscribed env0].
  split; [reflexivity|]. split; [|split; reflexivity].
  rewrite !app_assoc. apply last_snoc.
Qed.

Lemma send_command_stop_failure_witness :
  let self := mkController (Some "AA:BB:CC:DD:EE:FF") (Some (mkClient true)) in
  let script := mkScript true None None
                  [[0xAA; 0x55; 0x01; 0x10; 0x01; 0x01; 0x01; 0x00; 0xEF]]
                  (Some (BleakError "Not connected")) in
  (ConfigUi03.send_command script self 0x10 0x01 [0x01] env0).1
  = Ok (last_ack (incoming script) None)
  /\ last (calls (ConfigUi03.send_command script self 0x10 0x01 [0x01] env0).2)
     = Some (StWarning ("Error stopping notification: "
                        +:+ str (BleakError "Not connected")))
  /\ subscribed (ConfigUi03.send_command script self 0x10 0x01 [0x01] env0).2
     = true
  /\ (ConfigUi.send_command script self 0x10 0x01 [0x01] env0).1
     = Raise (BleakError "Not connected").
Proof.
  intros self script.
  apply (send_command_stop_failure script self 0x10 0x01 [0x01]
           (BleakError "Not connected")); try reflexivity.
  - repeat constructor; unfold is_byte; lia.
  - unfold len. simpl. lia.
Defined.

Lemma last_ack_snoc (notifications : list bytes) (data : bytes) (a : Ack)
    (previous : option Ack) :
  parse_ack data = Ok a ->
  last_ack (notifications ++ [data]) previous = Some a.
Proof.
  intros Ha. unfold last_ack. rewrite fold_left_app. cbn [fold_left].
  now rewrite Ha.
Qed.

(** X15. End to end: when the last notification received during a send is a
    frame that [build_frame] would make from 1 to 32 payload bytes, and no
    client call raises before the wait, [send_command] returns its decoding:
    event, subevent and sequence modulo 256, status the first payload byte,
    whatever came before it (the same in [ws2812_config_ui.py] when
    [stop_notify] does not raise). *)
Theorem send_command_returns_device_ack (script : Script)
    (self : WS2812Controller) (e s : Z) (payload : bytes)
    (e' s' q' : Z) (p' reply : bytes) (earlier : list bytes) :
  not_connected self = false -> import_ok script = true ->
  is_bytes payload -> len payload <= 32 ->
  on_start_notify script = None -> on_write script = None ->
  is_bytes p' -> 1 <= len p' <= 32 ->
  build_frame e' s' q' p' = Ok reply ->
  incoming script = earlier ++ [reply] ->
  let ack := {| event := e' mod 256;
                sub_event := s' mod 256;
                sequence := q' mod 256;
                status := p' !! 0%nat;
                ref_event := p' !! 1%nat;
                ref_sub := p' !! 2%nat |} in
  (ConfigUi03.send_command script self e s payload env0).1 = Ok (Some ack)
  /\ (on_stop_notify script = None ->
      (ConfigUi.send_command script self e s payload env0).1 = Ok (Some ack)).
Proof.
  intros Hconn Himp Hb Hl Hstart Hwrite Hb' [Hlo' Hhi'] Hreply Hinc ack.
  pose proof (build_frame_wire e s 1 payload Hb Hl) as Hframe.
  rewrite build_frame_wire in Hreply by assumption. injection Hreply as <-.
  pose proof (parse_ack_wire_frame_mod e' s' q' p' Hlo') as Hack.
  rewrite (send_command_03_run _ _ _ _ _ _ _ Hconn Himp Hframe).
  rewrite (send_command_run _ _ _ _ _ _ _ Hconn Himp Hframe).
  rewrite Hstart, Hwrite, Hinc. cbn [fst].
  rewrite (last_ack_snoc _ _ _ _ Hack).
  split; [reflexivity|]. now intros ->.
Qed.

Lemma send_command_returns_device_ack_witness :
  let self := mkController (Some "AA:BB:CC:DD:EE:FF") (Some (mkClient true)) in
  let script := mkScript true None None
                  [[0x00; 0x01];
                   [0xAA; 0x55; 0x01; 0x10; 0x01; 0x01; 0x03; 0x00; 0x10; 0x01; 0xFC]]
                  None in
  let ack := {| event := 0x10 mod 256;
                sub_event := 0x01 mod 256;
                sequence := 1 mod 256;
                status := [0x00; 0x10; 0x01] !! 0%nat;
                ref_event := [0x00; 0x10; 0x01] !! 1%nat;
                ref_sub := [0x00; 0x10; 0x01] !! 2%nat |} in
  (ConfigUi03.send_command script self 0x10 0x01 [0x01] env0).1 = Ok (Some ack)
  /\ (on_stop_notify script = None ->
      (ConfigUi.send_command script self 0x10 0x01 [0x01] env0).1
      = Ok (Some ack)).
Proof.
  intros self script.
  apply (send_command_returns_device_ack script self 0x10 0x01 [0x01]
           0x10 0x01 1 [0x00; 0x10; 0x01]
           [0xAA; 0x55; 0x01; 0x10; 0x01; 0x01; 0x03; 0x00; 0x10; 0x01; 0xFC]
           [[0x00; 0x01]]); try reflexivity.
  - repeat constructor; unfold is_byte; lia.
  - unfold len. simpl. lia.
  - repeat constructor; unfold is_byte; lia.
  - unfold len. simpl. lia.
Defined.

Lemma send_command_cases (script : Script) (self : WS2812Controller)
    (e s : Z) (payload : bytes) (st : env) :
  calls (ConfigUi.send_command script self e s payload st).2 = calls st
  \/ (not_connected self = false /\ import_ok script = true /\
      exists frame, build_frame e s 1 payload = Ok frame).
Proof.
  destruct (not_connected self) eqn:Hconn.
  { left. unfold ConfigUi.send_command. now rewrite Hconn. }
  destruct (import_ok script) eqn:Himp.
  2:{ left. unfold ConfigUi.send_command. rewrite Hconn. run_io.
      now rewrite Himp. }
  destruct (build_frame e s 1 payload) as [frame|ex] eqn:Hframe.
  2:{ left. unfold ConfigUi.send_command. rewrite Hconn. run_io.
      now rewrite Himp, Hframe. }
  right. eauto.
Qed.

(** X16. One send writes at most once, and never before subscribing: the
    calls of a [send_command] (both versions, whatever the client does) hold
    no write at all, or exactly one, of the frame [build_frame] made with
    sequence 1, placed right after the [start_notify] that opens the
    calls. *)
Theorem send_command_at_most_one_write (script : Script)
    (self : WS2812Controller) (e s : Z) (payload : bytes) :
  (written_frames
     (calls (ConfigUi03.send_command script self e s payload env0).2) = []
   \/ exists frame rest,
        build_frame e s 1 payload = Ok frame /\
        calls (ConfigUi03.send_command script self e s payload env0).2
        = StartNotify UUID_CHAR_COMMAND
            :: WriteGattChar UUID_CHAR_COMMAND frame :: rest /\
        written_frames rest = [])
  /\ (written_frames
        (calls (ConfigUi.send_command script self e s payload env0).2) = []
      \/ exists frame rest,
           build_frame e s 1 payload = Ok frame /\
           calls (ConfigUi.send_command script self e s payload env0).2
           = StartNotify UUID_CHAR_COMMAND
               :: WriteGattChar UUID_CHAR_COMMAND frame :: rest /\
           written_frames rest = []).
Proof.
  split.
  - destruct (send_command_03_cases script self e s payload env0)
      as [Hnone | (Hconn & Himp & frame & Hframe)].
    { left. now rewrite Hnone. }
    rewrite (send_command_03_run _ _ _ _ _ _ _ Hconn Himp Hframe).
    destruct (on_start_notify script); [left; reflexivity|].
    right. exists frame.
    destruct (on_write script); cbn [snd calls env0 app]; eexists;
      (split; [exact Hframe|]); (split; [reflexivity|]).
    + cbn. apply written_frames_stop_warning.
    + change (Sleep 2 :: parse_warnings (incoming script)
                ++ StopNotify UUID_CHAR_COMMAND :: stop_warning script)
        with ([Sleep 2] ++ parse_warnings (incoming script)
                ++ [StopNotify UUID_CHAR_COMMAND] ++ stop_warning script).
      now rewrite !written_frames_app, written_frames_parse_warnings,
        written_frames_stop_warning.
  - destruct (send_command_cases script self e s payload env0)
      as [Hnone | (Hconn & Himp & frame & Hframe)].
    { left. now rewrite Hnone. }
    rewrite (send_command_run _ _ _ _ _ _ _ Hconn Himp Hframe).
    destruct (on_start_notify script); [left; reflexivity|].
    right. exists frame.
    destruct (on_write script); cbn [snd calls env0 app]; eexists;
      (split; [exact Hframe|]); (split; [reflexivity|]).
    + reflexivity.
    + change (Sleep 2 :: parse_warnings (incoming script)
                ++ [StopNotify UUID_CHAR_COMMAND])
        with ([Sleep 2] ++ parse_warnings (incoming script)
                ++ [StopNotify UUID_CHAR_COMMAND]).
      now rewrite !written_frames_app, written_frames_parse_warnings.
Qed.

Lemma send_command_03_unsubscribes_witness :
  let self := mkController (Some "AA:BB:CC:DD:EE:FF") (Some (mkClient true)) in
  let script := mkScript true None (Some (BleakError "write failed"))
                  [] None in
  exists pre,
    calls (ConfigUi03.send_command script self 0x10 0x01 [0x01] env0).2
    = pre ++ StopNotify UUID_CHAR_COMMAND :: stop_warning script
    /\ StartNotify UUID_CHAR_COMMAND ∈ pre
    /\ subscribed (ConfigUi03.send_command script self 0x10 0x01 [0x01] env0).2
       = after_stop script.
Proof.
  intros self script.
  apply (send_command_03_unsubscribes script self 0x10 0x01 [0x01]).
  - reflexivity.
  - apply elem_of_cons. left. reflexivity.
Defined.

Lemma send_command_versions_agree_witness :
  let self := mkController (Some "AA:BB:CC:DD:EE:FF") (Some (mkClient true)) in
  let script := mkScript true None None
                  [[0xAA; 0x55; 0x01; 0x10; 0x01; 0x01; 0x01; 0x00; 0xEF]] None in
  (ConfigUi.send_command script self 0x10 0x01 [0x01] env0).1
  = (ConfigUi03.send_command script self 0x10 0x01 [0x01] env0).1
  /\ calls (ConfigUi.send_command script self 0x10 0x01 [0x01] env0).2
     = calls (ConfigUi03.send_command script self 0x10 0x01 [0x01] env0).2.
Proof.
  intros self script.
  apply (send_command_versions_agree script self 0x10 0x01 [0x01]);
    reflexivity.
Defined.

(** * connect_device and disconnect *)

Lemma connect_body_true (script : ConnectScript) (self : WS2812Controller)
    (n : string) :
  (connect_body script self n).1.1 = Ok true
  <-> on_import script = None /\ on_connect script = None /\
      exists a, discover_device_by_name n (scanned script) = Ok (Some a)
                /\ a <> "".
Proof.
  unfold connect_body.
  destruct (on_import script) as [ex|].
  { split; [discriminate | intros [[=] _]]. }
  destruct (discover_device_by_name n (scanned script)) as [[a|]|ex].
  - cbn [truthy_name]. destruct (String.eqb_spec a "") as [->|Hne]; cbn.
    + split; [discriminate | intros (_ & _ & a & [= <-] & Hne); congruence].
    + destruct (on_connect script) as [ex|]; cbn.
      * split; [discriminate | intros (_ & [=] & _)].
      * split; [eauto 6 | reflexivity].
  - split; [discriminate | intros (_ & _ & a & [=] & _)].
  - split; [discriminate | intros (_ & _ & a & [=] & _)].
Qed.

(** X19. [connect_device] (both versions) returns [True] exactly when the
    imports work, the scan finds the name at a non-empty address and
    [connect()] does not raise; the controller then holds that address and a
    client that reports connected, made by one [BleakClient(address)] and one
    [connect()]. *)
Theorem connect_device_true_iff (script : ConnectScript)
    (self : WS2812Controller) (n : string) :
  ((Controller03.connect_device script self n).1.1 = Ok true
   <-> on_import script = None /\ on_connect script = None /\
       exists a, discover_device_by_name n (scanned script) = Ok (Some a)
                 /\ a <> "")
  /\ ((Controller.connect_device script self n).1.1 = Ok true
      <-> (Controller03.connect_device script self n).1.1 = Ok true)
  /\ (forall a,
        on_import script = None -> on_connect script = None ->
        discover_device_by_name n (scanned script) = Ok (Some a) -> a <> "" ->
        Controller03.connect_device script self n
        = (Ok true, mkController (Some a) (Some (mkClient true)),
           [NewClient a; Connect])
        /\ Controller.connect_device script self n
           = (Ok true, mkController (Some a) (Some (mkClient true)),
              [NewClient a; Connect])).
Proof.
  split; [|split].
  - rewrite <- (connect_body_true script self n).
    unfold Controller03.connect_device.
    destruct (connect_body script self n) as [[[b|ex] self'] cs];
      reflexivity.
  - unfold Controller03.connect_device, Controller.connect_device.
    destruct (connect_body script self n) as [[[b|ex] self'] cs]; cbn;
      [reflexivity | split; discriminate].
  - intros a Himp Hconn Hfound Hne.
    unfold Controller03.connect_device, Controller.connect_device, connect_body.
    rewrite Himp, Hfound, Hconn. cbn [truthy_name].
    apply String.eqb_neq in Hne. rewrite Hne. split; reflexivity.
Qed.

(** X20. A lookup that finds nothing leaves the client alone: when the scan
    returns no match, [connect_device] (both versions) returns [False]
    without creating or connecting a client; it stores [None] as the device
    address and keeps whatever client the controller had, connected or
    not. *)
Theorem connect_device_not_found (script : ConnectScript)
    (self : WS2812Controller) (n : string) :
  on_import script = None ->
  discover_device_by_name n (scanned script) = Ok None ->
  Controller03.connect_device script self n
  = (Ok false, mkController None (client self), [])
  /\ Controller.connect_device script self n
     = (Ok false, mkController None (client self), [])
  /\ not_connected (mkController None (client self)) = not_connected self.
Proof.
  intros Himp Hnone.
  unfold Controller03.connect_device, Controller.connect_device, connect_body.
  rewrite Himp, Hnone. repeat split.
Qed.

Lemma connect_device_not_found_witness :
  let script := mkConnectScript None
                  (Ok [mkDevice (Some "OTHER") "00:00:00:00:00:01"]) None in
  let self := mkController (Some "AA:BB:CC:DD:EE:FF") (Some (mkClient true)) in
  Controller03.connect_device script self "HOSHI-MATRIX"
  = (Ok false, mkController None (client self), [])
  /\ Controller.connect_device script self "HOSHI-MATRIX"
     = (Ok false, mkController None (client self), [])
  /\ not_connected (mkController None (client self)) = not_connected self.
Proof.
  intros script self.
  apply (connect_device_not_found script self "HOSHI-MATRIX"); reflexivity.
Defined.

Lemma connect_body_guard (script : ConnectScript) (self : WS2812Controller)
    (n : string) :
  not_connected self = true ->
  not_connected (connect_body script self n).1.2
  = match (connect_body script self n).1.1 with
    | Ok true => false
    | _ => true
    end.
Proof.
  intros Hself. unfold connect_body.
  destruct (on_import script); [exact Hself|].
  destruct (discover_device_by_name n (scanned script)) as [[a|]|ex];
    [|exact Hself|exact Hself].
  destruct (truthy_name (Some a)); [|exact Hself].
  now destruct (on_connect script).
Qed.

(** X21. Connecting and sending compose: on a controller that was not
    connected, a [send_command] issued after [connect_device] gets past its
    connection test exactly when [connect_device] returned [True]; after
    [False] or an exception (also one raised by [connect()], which leaves an
    unconnected client behind) it raises "Device not connected" and makes no
    client call. *)
Theorem connect_then_send (cscript : ConnectScript) (script : Script)
    (self : WS2812Controller) (n : string) (e s : Z) (payload : bytes)
    (st : env) :
  not_connected self = true ->
  let out := Controller03.connect_device cscript self n in
  (out.1.1 = Ok true -> not_connected out.1.2 = false)
  /\ (out.1.1 <> Ok true ->
      ConfigUi03.send_command script out.1.2 e s payload st
      = (Raise (Exception "Device not connected"), st)).
Proof.
  intros Hself out. subst out.
  pose proof (connect_body_guard cscript self n Hself) as Hg.
  unfold Controller03.connect_device.
  destruct (connect_body cscript self n) as [[[b|ex] self'] cs];
    cbn [fst snd] in *.
  - destruct b.
    + split; [intros _; exact Hg | congruence].
    + split; [discriminate|]. intros _.
      unfold ConfigUi03.send_command. now rewrite Hg.
  - split; [discriminate|]. intros _.
    unfold ConfigUi03.send_command. now rewrite Hg.
Qed.

Lemma connect_then_send_witness :
  let cscript := mkConnectScript None
                   (Ok [mkDevice (Some "HOSHI-MATRIX") "AA:BB:CC:DD:EE:FF"])
                   (Some (BleakError "Device not found")) in
  let out := Controller03.connect_device cscript (mkController None None)
               "HOSHI-MATRIX" in
  (out.1.1 = Ok true -> not_connected out.1.2 = false)
  /\ (out.1.1 <> Ok true ->
      ConfigUi03.send_command (mkScript true None None [] None) out.1.2
        0x10 0x01 [0x01] env0
      = (Raise (Exception "Device not connected"), env0)).
Proof.
  intros cscript.
  apply (connect_then_send cscript (mkScript true None None [] None)
           (mkController None None) "HOSHI-MATRIX" 0x10 0x01 [0x01] env0).
  reflexivity.
Defined.


(** X23. [disconnect] makes no call on a controller without client. With a
    client it calls [disconnect()] once and keeps the client object: a
    [send_command] after it raises "Device not connected" without any client
    call, and a second [disconnect] calls [disconnect()] again. *)
Theorem disconnect_behaviour (self : WS2812Controller) (script : Script)
    (e s : Z) (payload : bytes) (st : env) :
  (client self = None ->
   forall od, disconnect od self = (Ok tt, self, []))
  /\ (forall c, client self = Some c ->
      exists self',
        disconnect None self = (Ok tt, self', [Disconnect])
        /\ ConfigUi03.send_command script self' e s payload st
           = (Raise (Exception "Device not connected"), st)
        /\ ConfigUi.send_command script self' e s payload st
           = (Raise (Exception "Device not connected"), st)
        /\ disconnect None self' = (Ok tt, self', [Disconnect])).
Proof.
  split.
  - intros Hnone od. unfold disconnect. now rewrite Hnone.
  - intros c Hc.
    exists (mkController (device_address self) (Some (mkClient false))).
    unfold disconnect. rewrite Hc. repeat split.
Qed.

(** * The time-sync payload *)

Lemma le_bytes_length (k : nat) (n : Z) : length (le_bytes k n) = k.
Proof. revert n. induction k as [|k IH]; intros n; simpl; auto. Qed.

Lemma le_bytes_is_bytes (k : nat) (n : Z) : is_bytes (le_bytes k n).
Proof.
  revert n. induction k as [|k IH]; intros n; simpl.
  - constructor.
  - constructor; [|apply IH]. unfold is_byte. apply Z.mod_pos_bound. lia.
Qed.

Lemma from_le_bytes (k : nat) (n : Z) :
  0 <= n < 256 ^ Z.of_nat k -> from_bytes_little (le_bytes k n) = n.
Proof.
  revert n. induction k as [|k IH]; intros n Hn.
  - simpl in *. lia.
  - cbn [le_bytes from_bytes_little fold_right].
    fold (from_bytes_little (le_bytes k (n / 256))).
    rewrite Nat2Z.inj_succ, Z.pow_succ_r in Hn by lia.
    rewrite IH.
    + pose proof (Z.div_mod n 256 ltac:(lia)). lia.
    + split; [apply Z.div_pos; lia|].
      apply Z.div_lt_upper_bound; lia.
Qed.

(** [to_bytes(length, 'little')] and its inverse: for every [n] that
    fits ([0 <= n < 256 ** length]) the conversion succeeds, gives exactly
    [length] bytes, and reading them back least significant byte first gives
    [n] again. *)
Theorem to_bytes_little_roundtrip (k : nat) (n : Z) :
  0 <= n < 256 ^ Z.of_nat k ->
  exists data,
    to_bytes_little k n = Some data /\ length data = k /\ is_bytes data /\
    from_bytes_little data = n.
Proof.
  intros Hn. exists (le_bytes k n). unfold to_bytes_little.
  destruct (Z.leb_spec 0 n); [|lia].
  destruct (Z.ltb_spec n (256 ^ Z.of_nat k)); [|lia].
  split; [reflexivity|]. split; [apply le_bytes_length|].
  split; [apply le_bytes_is_bytes|]. now apply from_le_bytes.
Qed.

Lemma to_bytes_little_roundtrip_witness :
  exists data,
    to_bytes_little 4 1700000000 = Some data /\ length data = 4%nat /\
    is_bytes data /\ from_bytes_little data = 1700000000.
Proof.
  apply (to_bytes_little_roundtrip 4 1700000000). simpl. lia.
Defined.

Example to_bytes_little_example :
  to_bytes_little 4 0x12345678 = Some [0x78; 0x56; 0x34; 0x12]
  /\ to_bytes_little 4 (-1) = None
  /\ to_bytes_little 4 (2 ^ 32) = None.
Proof. repeat split. Qed.

(** X24. "Sync Time" on a connected client, for any clock value below
    [2 ** 32]: once [start_notify] has succeeded, exactly one frame is
    written; it has 12 bytes, starts with AA 55 01 11 00 01 04 (event 0x11,
    subevent 0, sequence 1, four payload bytes), and its payload read least
    significant byte first is the timestamp. *)
Theorem sync_time_frame (script : Script) (self : WS2812Controller) (ts : Z) :
  not_connected self = false -> import_ok script = true ->
  on_start_notify script = None ->
  0 <= ts < 2 ^ 32 ->
  exists out frame,
    sync_time script self ts = Some out /\
    written_frames (calls out.2) = [frame] /\
    length frame = 12%nat /\
    take 7 frame = [0xAA; 0x55; 0x01; 0x11; 0x00; 0x01; 0x04] /\
    from_bytes_little (take 4 (drop 7 frame)) = ts.
Proof.
  intros Hconn Himp Hstart Hts.
  destruct (to_bytes_little_roundtrip 4 ts Hts)
    as (payload & Hpay & Hlen & Hbytes & Hback).
  assert (Hl : len payload = 4) by (unfold len; rewrite Hlen; reflexivity).
  pose proof (build_frame_wire 0x11 0x00 1 payload Hbytes ltac:(lia)) as Hframe.
  unfold sync_time. rewrite Hpay.
  eexists. exists (wire_frame 0x11 0x00 1 payload).
  split; [reflexivity|].
  split; [exact (send_command_03_frames _ _ _ _ _ _ env0 Hconn Himp Hframe Hstart)|].
  split; [rewrite wire_frame_length, Hlen; reflexivity|].
  split.
  - unfold wire_frame, wire_head. rewrite <- app_assoc. cbn [app take].
    now rewrite Hl.
  - unfold wire_frame, wire_head. rewrite <- app_assoc. cbn [app drop].
    rewrite drop_0, take_app_le, take_ge by lia. exact Hback.
Qed.

Lemma sync_time_frame_witness :
  exists out frame,
    sync_time (mkScript true None None [] None)
      (mkController (Some "AA:BB:CC:DD:EE:FF") (Some (mkClient true)))
      1700000000 = Some out /\
    written_frames (calls out.2) = [frame] /\
    length frame = 12%nat /\
    take 7 frame = [0xAA; 0x55; 0x01; 0x11; 0x00; 0x01; 0x04] /\
    from_bytes_little (take 4 (drop 7 frame)) = 1700000000.
Proof.
  apply (sync_time_frame (mkScript true None None [] None)
           (mkController (Some "AA:BB:CC:DD:EE:FF") (Some (mkClient true)))
           1700000000); try reflexivity.
  simpl. lia.
Defined.

(** * ws2812_ble_test.py: run *)

Lemma land_255_idem (x : Z) : Z.land (Z.land x 0xFF) 0xFF = Z.land x 0xFF.
Proof. now rewrite <- Z.land_assoc. Qed.

Lemma build_frame_masked_sequence (e s q : Z) (payload : bytes) :
  build_frame e s (Z.land q 0xFF) payload = build_frame e s q payload.
Proof. unfold build_frame. now rewrite land_255_idem. Qed.


(** X25. [run] builds the frame before it touches the radio: when the hex
    payload does not parse, [run] raises that error, and when it parses to
    more than 32 bytes (without [--timesync]) [run] raises "payload too
    long"; in both cases no scan is started and no client is created. A
    payload that does not parse stops [run] even with [--timesync], which
    would not have used it. *)
Theorem run_rejects_before_io (fromhex : string -> result bytes)
    (script : RunScript) (args : Namespace) :
  args_payload args <> "" ->
  (forall ex, fromhex (args_payload args) = Raise ex ->
     run fromhex script args = (Some (Std ex), []))
  /\ (forall payload,
        args_timesync args = false ->
        fromhex (args_payload args) = Ok payload -> len payload > 32 ->
        run fromhex script args
        = (Some (Std (ValueError "payload too long")), [])).
Proof.
  intros Hne. apply String.eqb_neq in Hne. split.
  - intros ex Hex. unfold run, run_frame. now rewrite Hne, Hex.
  - intros payload Hts Hok Hlen. unfold run, run_frame.
    rewrite Hne, Hok, Hts, build_frame_masked_sequence.
    now rewrite build_frame_too_long.
Qed.

Lemma run_rejects_before_io_witness :
  let fromhex := fun _ : string => Ok (replicate 33 0xFF) in
  let args := mkNamespace (Some "AA:BB:CC:DD:EE:FF") None 0x10 0x01
                "ffffffffffffffffffffffffffffffffffffffffffffffffffffffffffffffffff"
                1 2 false in
  let script := mkRunScript 1700000000 (Ok []) None true
                  (mkScript true None None [] None) None in
  (forall ex, fromhex (args_payload args) = Raise ex ->
     run fromhex script args = (Some (Std ex), []))
  /\ (forall payload,
        args_timesync args = false ->
        fromhex (args_payload args) = Ok payload -> len payload > 32 ->
        run fromhex script args
        = (Some (Std (ValueError "payload too long")), [])).
Proof.
  intros fromhex args script.
  apply (run_rejects_before_io fromhex script args).
  discriminate.
Defined.

(** X26. With [--timesync] and a clock below [2 ** 32], whatever event,
    subevent and payload were given (as long as the payload parses), the
    frame [run] prepares is [build_frame(0x11, 0x00, sequence, payload)] with
    the four-byte little-endian timestamp as payload: 12 bytes whose payload
    reads back as the clock value. *)
Theorem run_timesync_frame (fromhex : string -> result bytes)
    (ts : Z) (args : Namespace) :
  args_timesync args = true ->
  args_payload args = "" \/ (exists p, fromhex (args_payload args) = Ok p) ->
  0 <= ts < 2 ^ 32 ->
  exists frame,
    run_frame fromhex ts args = Returns frame /\
    build_frame 0x11 0x00 (args_sequence args) (le_bytes 4 ts) = Ok frame /\
    length frame = 12%nat /\
    from_bytes_little (take 4 (drop 7 frame)) = ts.
Proof.
  intros Hsync Hparse Hts.
  destruct (to_bytes_little_roundtrip 4 ts Hts)
    as (payload & Hpay & Hlen & Hbytes & Hback).
  assert (Hp : payload = le_bytes 4 ts).
  { unfold to_bytes_little in Hpay.
    destruct ((0 <=? ts) && (ts <? 256 ^ Z.of_nat 4)); congruence. }
  assert (Hl : len payload <= 32) by (unfold len; rewrite Hlen; lia).
  pose proof (build_frame_wire 0x11 0x00 (args_sequence args) payload Hbytes Hl)
    as Hframe.
  exists (wire_frame 0x11 0x00 (args_sequence args) payload).
  split; [|split; [now rewrite <- Hp|split]].
  - unfold run_frame, struct_pack_I_le. rewrite Hsync, Hpay.
    rewrite build_frame_masked_sequence, Hframe.
    destruct Hparse as [-> | [p ->]]; [reflexivity|].
    now destruct (String.eqb (args_payload args) "").
  - now rewrite wire_frame_length, Hlen.
  - unfold wire_frame, wire_head. rewrite <- app_assoc. cbn [app drop].
    rewrite drop_0, take_app_le, take_ge by lia. exact Hback.
Qed.

Lemma run_timesync_frame_witness :
  let fromhex := fun _ : string => Ok [0x01] in
  let args := mkNamespace (Some "AA:BB:CC:DD:EE:FF") None 0x10 0x01 "01"
                0x101 2 true in
  exists frame,
    run_frame fromhex 1700000000 args = Returns frame /\
    build_frame 0x11 0x00 (args_sequence args) (le_bytes 4 1700000000)
    = Ok frame /\
    length frame = 12%nat /\
    from_bytes_little (take 4 (drop 7 frame)) = 1700000000.
Proof.
  intros fromhex args.
  apply (run_timesync_frame fromhex 1700000000 args).
  - reflexivity.
  - right. exists [0x01]. reflexivity.
  - simpl. lia.
Defined.

Lemma first_match_no_advert (n : string) (devices : list BLEDevice) :
  (forall d, d ∈ devices -> ~ advertises d n) ->
  first_match n devices = None.
Proof.
  intros Hno. destruct (first_match n devices) as [a|] eqn:Hfm; [|reflexivity].
  destruct (first_match_found _ _ _ Hfm) as (pre & d & post & -> & Hadv & _).
  exfalso. apply (Hno d); [|exact Hadv].
  apply elem_of_app. right. apply elem_of_cons. now left.
Qed.

(** X27. [run --name N]: when the frame is built and the scan ends without
    an advertisement named [N], [run] raises [RuntimeError] "Could not find
    device with name: N"; the scan is the only thing it did, no client is
    created. *)
Theorem run_name_not_found (fromhex : string -> result bytes)
    (script : RunScript) (args : Namespace) (frame : bytes) (n : string)
    (devices : list BLEDevice) :
  run_frame fromhex (now script) args = Returns frame ->
  args_name args = Some n -> n <> "" ->
  run_scanned script = Ok devices ->
  (forall d, d ∈ devices -> ~ advertises d n) ->
  run fromhex script args
  = (Some (Std (RuntimeError ("Could not find device with name: " +:+ n))),
     [Scan n]).
Proof.
  intros Hframe Hname Hne Hscan Hno.
  unfold run, run_address. rewrite Hframe, Hname. cbn [truthy_name].
  apply String.eqb_neq in Hne. rewrite Hne. cbn [negb].
  rewrite Hscan. unfold discover_device_by_name. rewrite bind_Ok.
  now rewrite (first_match_no_advert _ _ Hno).
Qed.

Lemma run_name_not_found_witness :
  let fromhex := fun _ : string => Ok [0x01] in
  let args := mkNamespace None (Some "HOSHI-MATRIX") 0x10 0x01 "01" 1 2 false in
  let script := mkRunScript 1700000000
                  (Ok [mkDevice (Some "OTHER") "00:00:00:00:00:01"]) None true
                  (mkScript true None None [] None) None in
  run fromhex script args
  = (Some (Std (RuntimeError
       ("Could not find device with name: " +:+ "HOSHI-MATRIX"))),
     [Scan "HOSHI-MATRIX"]).
Proof.
  intros fromhex args script.
  apply (run_name_not_found fromhex script args
           [0xAA; 0x55; 0x01; 0x10; 0x01; 0x01; 0x01; 0x01; 0xEE]
           "HOSHI-MATRIX" [mkDevice (Some "OTHER") "00:00:00:00:00:01"]);
    try reflexivity.
  - discriminate.
  - intros d Hd [Hn _]. apply list_elem_of_singleton in Hd. subst d.
    discriminate Hn.
Defined.

(** X28. Inside [async with], the client is always closed: once
    [__aenter__] has succeeded the calls of the block end with [__aexit__],
    whatever happens in between. In particular, when [write_gatt_char]
    raises, [stop_notify] is skipped but the client is still closed, and
    [run] raises the write's exception unless closing raised one itself. *)
Theorem run_session_always_exits (script : RunScript) (addr : option string)
    (frame : bytes) (wait : Z) :
  on_enter script = None ->
  last (run_session script addr frame wait).2 = Some Exit
  /\ (forall ex,
        connected script = true ->
        on_start_notify (transport script) = None ->
        on_write (transport script) = Some ex ->
        run_session script addr frame wait
        = (Some (Std (match on_exit script with
                      | Some ex' => ex'
                      | None => ex
                      end)),
           [Enter addr; Client (StartNotify UUID_CHAR_COMMAND);
            Client (WriteGattChar UUID_CHAR_COMMAND frame); Exit])).
Proof.
  intros Henter. split.
  - unfold run_session. rewrite Henter. cbv zeta.
    destruct (on_exit script); cbn [snd];
      rewrite app_comm_cons; apply last_snoc.
  - intros ex Hconn Hstart Hwrite.
    unfold run_session, run_body. rewrite Henter, Hconn. cbn [negb].
    run_io. rewrite Hstart, Hwrite. cbn.
    now destruct (on_exit script).
Qed.

Lemma run_session_always_exits_witness :
  let script := mkRunScript 1700000000 (Ok []) None true
                  (mkScript true None (Some (BleakError "write failed")) [] None)
                  None in
  let frame := [0xAA; 0x55; 0x01; 0x10; 0x01; 0x01; 0x01; 0x01; 0xEE] in
  last (run_session script (Some "AA:BB:CC:DD:EE:FF") frame 2).2 = Some Exit
  /\ (forall ex,
        connected script = true ->
        on_start_notify (transport script) = None ->
        on_write (transport script) = Some ex ->
        run_session script (Some "AA:BB:CC:DD:EE:FF") frame 2
        = (Some (Std (match on_exit script with
                      | Some ex' => ex'
                      | None => ex
                      end)),
           [Enter (Some "AA:BB:CC:DD:EE:FF");
            Client (StartNotify UUID_CHAR_COMMAND);
            Client (WriteGattChar UUID_CHAR_COMMAND frame); Exit])).
Proof.
  intros script frame.
  apply (run_session_always_exits script (Some "AA:BB:CC:DD:EE:FF") frame 2).
  reflexivity.
Defined.



(** * The effect table and the payload of "Apply Effect" *)

Lemma bytes_of_pair (a b : Z) :
  is_byte a -> is_byte b -> bytes_of [a; b] = Ok [a; b].
Proof.
  intros Ha Hb. unfold bytes_of. cbn [forallb].
  now rewrite !in_range_256_true.
Qed.

Lemma effect_payload_cases (effect_name : string) (code : Z) (w : Sliders) :
  (effect_name, code) ∈ EFFECTS ->
  (0 <= code < 256)
  /\ (effect_payload effect_name w = bytes_of [intensity w; speed w]
      \/ effect_payload effect_name w = bytes_of [wave_speed w; brightness w]
      \/ effect_payload effect_name w
         = bytes_of [anim_speed w; anim_brightness w]
      \/ effect_payload effect_name w = Ok [0x01]).
Proof.
  unfold EFFECTS. intros Hin.
  repeat (apply elem_of_cons in Hin as [[= -> ->]|Hin];
          [split; [lia|]; first
             [ now left
             | now (right; left)
             | now (right; right; left)
             | now (right; right; right) ] |]).
  inversion Hin.
Qed.

(** X30. Every effect of the table can be sent: for each name of [EFFECTS]
    and slider values inside the slider bounds, the payload chosen by the
    [if]/[elif] chain has one or two bytes and [build_frame(0x10, code, 1,
    payload)] returns a frame of 9 or 10 bytes whose subevent byte is the
    effect's code; neither [bytes([...])] nor [build_frame] raises. *)
Theorem effect_frame_always_built (effect_name : string) (code : Z)
    (w : Sliders) :
  (effect_name, code) ∈ EFFECTS -> sliders_in_range w ->
  exists payload frame,
    effect_payload effect_name w = Ok payload /\
    1 <= len payload <= 2 /\
    build_frame 0x10 code 1 payload = Ok frame /\
    length frame = (8 + length payload)%nat /\
    frame !! 4%nat = Some code.
Proof.
  intros Hin (Hi & Hs & Hws & Hb & Has & Hab).
  destruct (effect_payload_cases effect_name code w Hin) as [Hcode Hcases].
  assert (Hbuild : forall payload,
            is_bytes payload -> 1 <= len payload <= 2 ->
            effect_payload effect_name w = Ok payload ->
            exists payload frame,
              effect_payload effect_name w = Ok payload /\
              1 <= len payload <= 2 /\
              build_frame 0x10 code 1 payload = Ok frame /\
              length frame = (8 + length payload)%nat /\
              frame !! 4%nat = Some code).
  { intros payload Hp Hl Heq.
    exists payload, (wire_frame 0x10 code 1 payload).
    split; [exact Heq|]. split; [exact Hl|].
    split; [apply build_frame_wire; [exact Hp | lia]|].
    split; [apply wire_frame_length|].
    unfold wire_frame, wire_head. cbn.
    now rewrite is_byte_land_id. }
  destruct Hcases as [Heq | [Heq | [Heq | Heq]]];
    try rewrite bytes_of_pair in Heq by (unfold is_byte; lia);
    (eapply Hbuild; [| | exact Heq];
     [repeat constructor; unfold is_byte; lia | unfold len; simpl; lia]).
Qed.

Lemma effect_frame_always_built_witness :
  exists payload frame,
    effect_payload "Aurora Wave" (mkSliders 128 5 10 180 8 200) = Ok payload /\
    1 <= len payload <= 2 /\
    build_frame 0x10 0x0A 1 payload = Ok frame /\
    length frame = (8 + length payload)%nat /\
    frame !! 4%nat = Some 0x0A.
Proof.
  apply (effect_frame_always_built "Aurora Wave" 0x0A
           (mkSliders 128 5 10 180 8 200)).
  - unfold EFFECTS. repeat constructor.
  - unfold sliders_in_range. simpl. lia.
Defined.

(** Which branch each effect takes. *)
Example effect_payload_branches :
  let w := mkSliders 128 5 10 180 8 200 in
  effect_payload "Water Effect" w = Ok [0x01]
  /\ effect_payload "Turn Left V1" w = Ok [128; 5]
  /\ effect_payload "Go Forward V3" w = Ok [128; 5]
  /\ effect_payload "Aurora Wave" w = Ok [10; 180]
  /\ effect_payload "Plasma" w = Ok [8; 200]
  /\ effect_payload "Cylon" w = Ok [0x01].
Proof. repeat split. Qed.
